(** * lap_tracker: the lap-submission pipeline of [LapTracker]

    A shallow embedding of the business logic of [src/lap_tracker.py]
    (class [LapTracker]): trimming of the operator input, the barcode and
    class tables, the 30 second duplicate window, the tiered identifier
    lookup, the remote insert and the per-day CSV log.

    Conventions of the model.
    - A Python [str] is the list of its Unicode code points.
    - A [datetime] is a number of microseconds on the (naive, local) time
      line that [datetime.now()] reads; nothing makes successive readings
      increase.  [timedelta.total_seconds()] divides the microsecond count
      by 10^6 with correct rounding, so [total_seconds() < 30] holds exactly
      when the difference is below 30_000_000 microseconds.
    - The Python dictionaries are [gmap]s.
    - The outside world (clock, Supabase backend) is a record of oracles;
      the tracker counts its clock readings and keeps the trace of the
      remote calls it made, and the n-th call is answered by the oracle at
      index n.
    - The CSV file is the list of the rows written after the header, in
      order.  An append can fail: the world says when [open] or the write
      raises, and a text with a lone surrogate cannot be encoded as UTF-8;
      the handler of [add_lap_to_csv] then leaves the file as it was.
    - Printing to the console and Tk widget calls (labels, frames, focus)
      carry no business state and are left out. *)

From Stdlib Require Import ZArith NArith Ascii String.
From stdpp Require Import base option list gmap fin_maps.

Local Open Scope Z_scope.

(** ** Python strings *)

Abbreviation pystr := (list N).

(** An ASCII literal as a Python string. *)
Definition py (s : string) : pystr :=
  N_of_ascii <$> list_ascii_of_string s.

(** [ch.isspace()] for one code point: the characters [str.strip()]
    removes when called without argument. *)
Definition is_space (c : N) : bool :=
  ((9 <=? c) && (c <=? 13))%N || ((28 <=? c) && (c <=? 32))%N
  || (c =? 133)%N || (c =? 160)%N || (c =? 5760)%N
  || ((8192 <=? c) && (c <=? 8202))%N
  || (c =? 8232)%N || (c =? 8233)%N || (c =? 8239)%N
  || (c =? 8287)%N || (c =? 12288)%N.

Fixpoint lstrip (s : pystr) : pystr :=
  match s with
  | c :: s' => if is_space c then lstrip s' else s
  | [] => []
  end.

Definition rstrip (s : pystr) : pystr := rev (lstrip (rev s)).

(** [s.strip()] *)
Definition strip (s : pystr) : pystr := rstrip (lstrip s).

(** Truth value of a string, and of an [Optional[str]]. *)
Definition truthy (s : pystr) : bool :=
  match s with [] => false | _ :: _ => true end.

Definition opt_truthy (o : option pystr) : bool :=
  match o with Some s => truthy s | None => false end.

(** The text can be written to a file opened with [encoding='utf-8']: no
    code point is a surrogate (U+D800 to U+DFFF). *)
Definition utf8_encodable (s : pystr) : bool :=
  forallb (fun c => negb ((55296 <=? c) && (c <=? 57343))%N) s.

(** [a or b] on an [Optional[str]] and a string. *)
Definition or_else (o : option pystr) (d : pystr) : pystr :=
  match o with
  | Some s => if truthy s then s else d
  | None => d
  end.

(** ** The outside world *)

(** What [….execute()] does: it raises, or it returns a response whose
    [data] is a list of rows.  A row of [select("id")] is its id; a row
    returned by an insert is represented by its id as well. *)
Inductive response : Type :=
  | Raised
  | Data (rows : list pystr).

Record World : Type := {
  (** n-th reading of [datetime.now()], in microseconds *)
  now : nat -> Z;
  (** [table("classes").select("id").eq("name", name).execute()], when it
      is the n-th remote call *)
  select_classes : nat -> pystr -> response;
  (** [table("laps").insert({class_id, timestamp}).execute()], when it is
      the n-th remote call *)
  insert_laps : nat -> pystr -> Z -> response;
  (** [open(self.csv_filename, 'a', ...)] raises, when it is called after
      n clock readings *)
  csv_open_raises : nat -> bool;
  (** writing to the opened file, or closing it, raises for a reason of
      the file system, when [add_lap_to_csv] is called after n clock
      readings *)
  csv_write_raises : nat -> bool
}.

Inductive remote_call : Type :=
  | Select (name : pystr)
  | Insert (class_id : pystr) (timestamp : Z).

Definition is_insert (c : remote_call) : bool :=
  match c with Insert _ _ => true | Select _ => false end.

(** ** The CSV log *)

Inductive scan_type_t : Type := DUPLICATE_SCAN | NORMAL.

(** One row of [laps_YYYYMMDD.csv]:
    [timestamp,class_name,class_id,success,scan_type]. *)
Record Row : Type := {
  timestamp : Z;
  class_name : pystr;
  class_id : pystr;
  success : bool;
  scan_type : scan_type_t
}.

(** The text written for an unresolved identifier. *)
Definition UNKNOWN : pystr := py "UNKNOWN".

(** ** The tracker object *)

Record LapTracker : Type := {
  processing : bool;
  last_processed_text : pystr;
  recent_scans : gmap pystr Z;
  classes_dict : gmap pystr pystr;
  barcode_dict : gmap pystr pystr;
  (** [self.supabase] is a client ([true]) or [None] ([false]) *)
  supabase : bool;
  (** rows of the CSV file *)
  csv_rows : list Row;
  (** remote calls made so far, oldest first *)
  remote_calls : list remote_call;
  (** number of [datetime.now()] readings so far *)
  clock_reads : nat
}.

Definition set_processing (b : bool) (s : LapTracker) : LapTracker :=
  {| processing := b; last_processed_text := last_processed_text s;
     recent_scans := recent_scans s; classes_dict := classes_dict s;
     barcode_dict := barcode_dict s; supabase := supabase s;
     csv_rows := csv_rows s; remote_calls := remote_calls s;
     clock_reads := clock_reads s |}.

Definition set_last_processed_text (t : pystr) (s : LapTracker) : LapTracker :=
  {| processing := processing s; last_processed_text := t;
     recent_scans := recent_scans s; classes_dict := classes_dict s;
     barcode_dict := barcode_dict s; supabase := supabase s;
     csv_rows := csv_rows s; remote_calls := remote_calls s;
     clock_reads := clock_reads s |}.

Definition set_recent_scans (m : gmap pystr Z) (s : LapTracker) : LapTracker :=
  {| processing := processing s; last_processed_text := last_processed_text s;
     recent_scans := m; classes_dict := classes_dict s;
     barcode_dict := barcode_dict s; supabase := supabase s;
     csv_rows := csv_rows s; remote_calls := remote_calls s;
     clock_reads := clock_reads s |}.

Definition set_classes_dict (m : gmap pystr pystr) (s : LapTracker) : LapTracker :=
  {| processing := processing s; last_processed_text := last_processed_text s;
     recent_scans := recent_scans s; classes_dict := m;
     barcode_dict := barcode_dict s; supabase := supabase s;
     csv_rows := csv_rows s; remote_calls := remote_calls s;
     clock_reads := clock_reads s |}.

Definition set_csv_rows (l : list Row) (s : LapTracker) : LapTracker :=
  {| processing := processing s; last_processed_text := last_processed_text s;
     recent_scans := recent_scans s; classes_dict := classes_dict s;
     barcode_dict := barcode_dict s; supabase := supabase s;
     csv_rows := l; remote_calls := remote_calls s;
     clock_reads := clock_reads s |}.

Definition set_remote_calls (l : list remote_call) (s : LapTracker) : LapTracker :=
  {| processing := processing s; last_processed_text := last_processed_text s;
     recent_scans := recent_scans s; classes_dict := classes_dict s;
     barcode_dict := barcode_dict s; supabase := supabase s;
     csv_rows := csv_rows s; remote_calls := l;
     clock_reads := clock_reads s |}.

Definition set_clock_reads (n : nat) (s : LapTracker) : LapTracker :=
  {| processing := processing s; last_processed_text := last_processed_text s;
     recent_scans := recent_scans s; classes_dict := classes_dict s;
     barcode_dict := barcode_dict s; supabase := supabase s;
     csv_rows := csv_rows s; remote_calls := remote_calls s;
     clock_reads := n |}.

(** ** A state monad over the tracker *)

Definition M (A : Type) : Type := LapTracker -> A * LapTracker.

Definition ret {A} (a : A) : M A := fun self => (a, self).

Definition bind {A B} (m : M A) (k : A -> M B) : M B :=
  fun self => let (a, self') := m self in k a self'.

Definition gets {A} (f : LapTracker -> A) : M A := fun self => (f self, self).

Definition modify (f : LapTracker -> LapTracker) : M unit :=
  fun self => (tt, f self).

(** Result and final state of a computation. *)
Definition result {A} (m : M A) (self : LapTracker) : A := fst (m self).
Definition exec {A} (m : M A) (self : LapTracker) : LapTracker := snd (m self).

#[global] Instance M_ret : MRet M := @ret.
#[global] Instance M_bind : MBind M := fun A B k m => bind m k.

Section Pipeline.

Variable w : World.

(** [datetime.now()] *)
Definition datetime_now : M Z :=
  n ← gets clock_reads;
  modify (set_clock_reads (S n));;
  ret (now w n).

(** One call of the backend: the call is appended to the trace and
    answered by the oracle at its index. *)
Definition execute_select (name : pystr) : M response :=
  calls ← gets remote_calls;
  modify (set_remote_calls (calls ++ [Select name]));;
  ret (select_classes w (length calls) name).

Definition execute_insert (cid : pystr) (ts : Z) : M response :=
  calls ← gets remote_calls;
  modify (set_remote_calls (calls ++ [Insert cid ts]));;
  ret (insert_laps w (length calls) cid ts).

(** The name a stripped input stands for: [barcode_dict[input_text]] when
    the input is a barcode, the input itself otherwise (lines 380-384 and
    491-493).  [load_classes_mapping] creates both dictionaries before
    anything can fail, so the [hasattr] tests always succeed. *)
Definition barcode_or_literal (self : LapTracker) (input_text : pystr) : pystr :=
  default input_text (barcode_dict self !! input_text).

(** [get_class_id_by_name] (lines 377-413) *)
Definition get_class_id_by_name (input_text : pystr) : M (option pystr) :=
  let input_text := strip input_text in
  final_class_name ← gets (fun self => barcode_or_literal self input_text);
  classes ← gets classes_dict;
  match classes !! final_class_name with
  | Some cid => ret (Some cid)
  | None =>
      client ← gets supabase;
      if negb client then ret None
      else
        resp ← execute_select final_class_name;
        match resp with
        | Data (cid :: _) =>
            modify (fun self =>
              set_classes_dict (<[final_class_name := cid]> (classes_dict self)) self);;
            ret (Some cid)
        | Data [] => ret None
        | Raised => ret None
        end
  end.

(** [add_lap_to_supabase] (lines 415-437) *)
Definition add_lap_to_supabase (cid : pystr) : M bool :=
  client ← gets supabase;
  if negb client then ret false
  else
    ts ← datetime_now;
    resp ← execute_insert cid ts;
    match resp with
    | Data (_ :: _) => ret true
    | Data [] => ret false
    | Raised => ret false
    end.

(** [add_lap_to_csv] (lines 439-455).  The file is opened, the clock is
    read for the first cell and the row is written.  When [open] raises,
    or when the write raises (the file system, or a name or id that
    UTF-8 cannot encode), the handler of lines 454-455 prints a message
    and the file is as it was: a write adds the whole row or nothing. *)
Definition add_lap_to_csv (name : pystr) (cid : option pystr)
    (ok is_duplicate : bool) : M unit :=
  n ← gets clock_reads;
  if csv_open_raises w n then ret tt
  else
    ts ← datetime_now;
    let row := {| timestamp := ts;
                  class_name := strip name;
                  class_id := or_else cid UNKNOWN;
                  success := ok;
                  scan_type := if is_duplicate then DUPLICATE_SCAN else NORMAL |} in
    if csv_write_raises w n
       || negb (utf8_encodable (class_name row) && utf8_encodable (class_id row))
    then ret tt
    else modify (fun self => set_csv_rows (csv_rows self ++ [row]) self).

(** The cooldown window, 30 seconds in microseconds. *)
Definition window : Z := 30000000.

(** [is_recent_scan] (lines 457-464) *)
Definition is_recent_scan (name : pystr) : M bool :=
  t ← datetime_now;
  scans ← gets recent_scans;
  match scans !! name with
  | Some last_scan_time => ret (t - last_scan_time <? window)
  | None => ret false
  end.

(** [update_recent_scan] (lines 466-468) *)
Definition update_recent_scan (name : pystr) : M unit :=
  t ← datetime_now;
  modify (fun self => set_recent_scans (<[name := t]> (recent_scans self)) self).

(** The separator of [f"{input_text} → {display_name}"]: space, U+2192,
    space. *)
Definition arrow : pystr := [32; 8594; 32]%N.

(** Lines 485-520 of [process_lap]: what happens once the three guards
    have let the submission through.  [show_success_screen] only draws and
    starts the thread that runs [restore_main] one second later.  The
    handlers that [self.root.update()] may run in between meet
    [processing = True] and return at once. *)
Definition process_lap_body (input_text : pystr) : M unit :=
  modify (set_processing true);;
  modify (set_last_processed_text input_text);;
  display_name ← gets (fun self => barcode_or_literal self input_text);
  is_duplicate ← is_recent_scan display_name;
  cid ← get_class_id_by_name input_text;
  ok ← match cid with
       | Some c =>
           if truthy c && negb is_duplicate
           then
             ok ← add_lap_to_supabase c;
             update_recent_scan display_name;;
             ret ok
           else ret false
       | None => ret false
       end;
  let csv_name :=
    if bool_decide (input_text ≠ display_name)
    then input_text ++ arrow ++ display_name
    else display_name in
  add_lap_to_csv csv_name cid ok is_duplicate.

(** [process_lap] (lines 470-520); [raw] is [self.input_var.get()]. *)
Definition process_lap (raw : pystr) : M unit := fun self =>
  let input_text := strip raw in
  if negb (truthy input_text) then (tt, self)
  else if processing self then (tt, self)
  else if bool_decide (input_text = last_processed_text self) then (tt, self)
  else process_lap_body input_text self.

(** [check_and_process] (lines 361-375); [raw] is [self.input_var.get()]. *)
Definition check_and_process (raw : pystr) : M unit := fun self =>
  let text := strip raw in
  if processing self then (tt, self)
  else if bool_decide (text = last_processed_text self) then (tt, self)
  else if truthy text && (0 <? length text)%nat then process_lap raw self
  else (tt, self).

End Pipeline.

(** [restore_main] (lines 336-346), run by the thread that
    [show_success_screen] starts: after the one second sleep it resets the
    flag (line 345) and then clears the marker (line 346).  The two
    assignments are separate steps of that thread. *)
Definition restore_main_345 : LapTracker -> LapTracker := set_processing false.
Definition restore_main_346 : LapTracker -> LapTracker := set_last_processed_text [].
Definition restore_main (self : LapTracker) : LapTracker :=
  restore_main_346 (restore_main_345 self).

(** What can happen to a tracker. *)
Inductive event : Type :=
  | Return_key (raw : pystr)        (* <Return>: [process_lap] *)
  | Text_change (raw : pystr)       (* <KeyRelease>, paste: [check_and_process] *)
  | Restore_345                     (* the restore thread resets the flag *)
  | Restore_346.                    (* the restore thread clears the marker *)

Definition step (w : World) (e : event) (self : LapTracker) : LapTracker :=
  match e with
  | Return_key raw => exec (process_lap w raw) self
  | Text_change raw => exec (check_and_process w raw) self
  | Restore_345 => restore_main_345 self
  | Restore_346 => restore_main_346 self
  end.

(** The events of a list, oldest first. *)
Definition run (w : World) (evs : list event) (self : LapTracker) : LapTracker :=
  foldl (fun s e => step w e s) self evs.

(** The tracker as [__init__] leaves it, given the two loaded tables and
    whether a Supabase client could be created. *)
Definition init (classes barcodes : gmap pystr pystr) (client : bool) : LapTracker :=
  {| processing := false; last_processed_text := [];
     recent_scans := ∅; classes_dict := classes; barcode_dict := barcodes;
     supabase := client; csv_rows := []; remote_calls := []; clock_reads := 0 |}.


(** ** Vocabulary of the statements *)

(** The three guards of [process_lap] (lines 474-483) let [raw] through. *)
Definition enters_processing (self : LapTracker) (raw : pystr) : Prop :=
  strip raw ≠ [] ∧ processing self = false
  ∧ strip raw ≠ last_processed_text self.

(** The canonical team name of a submission. *)
Definition canonical_name (self : LapTracker) (raw : pystr) : pystr :=
  barcode_or_literal self (strip raw).

(** [response.data] is truthy: the backend acknowledged with data. *)
Definition acked (r : response) : bool :=
  match r with Data (_ :: _) => true | _ => false end.

(** The append made after [n] clock readings writes its row: neither
    [open] nor the write raises, and name and id can be encoded. *)
Definition csv_appends (w : World) (n : nat) (name cid : pystr) : bool :=
  negb (csv_open_raises w n) && negb (csv_write_raises w n)
  && utf8_encodable name && utf8_encodable cid.

(** A log file that never raises. *)
Definition reliable_log (w : World) : Prop :=
  ∀ n, csv_open_raises w n = false ∧ csv_write_raises w n = false.

(** What a processed submission puts in the [class_name] column (lines
    513 and 446) and in the [class_id] column (line 447). *)
Definition logged_name (self : LapTracker) (raw : pystr) : pystr :=
  strip (if bool_decide (strip raw ≠ barcode_or_literal self (strip raw))
         then strip raw ++ arrow ++ barcode_or_literal self (strip raw)
         else barcode_or_literal self (strip raw)).

Definition logged_id (w : World) (self : LapTracker) (raw : pystr) : pystr :=
  or_else (result (get_class_id_by_name w raw) self) UNKNOWN.

(** The append of the submission cannot fail: the log file never raises
    and what is written can be encoded. *)
Definition log_accepts (w : World) (self : LapTracker) (raw : pystr) : Prop :=
  reliable_log w
  ∧ utf8_encodable (logged_name self raw) = true
  ∧ utf8_encodable (logged_id w self raw) = true.

(** The row a processed submission hands to [writer.writerow]. *)
Definition lap_row (w : World) (self : LapTracker) (raw : pystr) : Row :=
  let dup := result (is_recent_scan w (barcode_or_literal self (strip raw))) self in
  let cid := result (get_class_id_by_name w raw) self in
  let accept := opt_truthy cid && negb dup in
  let reads := (if accept then if supabase self then 2 else 1 else 0)%nat in
  {| timestamp := now w (reads + S (clock_reads self));
     class_name := logged_name self raw;
     class_id := logged_id w self raw;
     success :=
       accept && supabase self
       && acked (insert_laps w
                   (length (remote_calls (exec (get_class_id_by_name w raw) self)))
                   (or_else cid []) (now w (S (clock_reads self))));
     scan_type := if dup then DUPLICATE_SCAN else NORMAL |}.

(** [r] is the row of the submission of [raw]: the log gains [r] at its
    end or, when the append raises, nothing; it gains [r] whenever the
    append cannot fail. *)
Definition logs_row (w : World) (self : LapTracker) (raw : pystr) (r : Row) : Prop :=
  (csv_rows (exec (process_lap w raw) self) = csv_rows self
   ∨ csv_rows (exec (process_lap w raw) self) = csv_rows self ++ [r])
  ∧ (log_accepts w self raw ->
     csv_rows (exec (process_lap w raw) self) = csv_rows self ++ [r]).

(** The remote calls of [l] are all lookups. *)
Definition only_selects (l : list remote_call) : Prop :=
  Forall (fun c => is_insert c = false) l.

(** A world for the examples: the clock advances by [dt] microseconds per
    reading, the backend answers by the two given functions whatever the
    index of the call, and the log file never raises. *)
Definition world_of (dt : Z) (sel : pystr -> response) (ins : pystr -> response) : World :=
  {| now := fun n => Z.of_nat n * dt;
     select_classes := fun _ name => sel name;
     insert_laps := fun _ cid _ => ins cid;
     csv_open_raises := fun _ => false;
     csv_write_raises := fun _ => false |}.

(** A submission event, as opposed to a step of the restore thread. *)
Definition is_submission (e : event) : bool :=
  match e with
  | Return_key _ | Text_change _ => true
  | Restore_345 | Restore_346 => false
  end.

(** ** A small race, used in the examples

    One class [7A] with id [id-7A] in [classes_rows.csv], one barcode
    [B123] for it; the clock advances one second per reading. *)

Definition ex_classes : gmap pystr pystr := {[ py "7A" := py "id-7A" ]}.
Definition ex_barcodes : gmap pystr pystr := {[ py "B123" := py "7A" ]}.
Definition ex_tracker : LapTracker := init ex_classes ex_barcodes true.

(** The backend knows one more class, [8B], and acknowledges inserts. *)
Definition ex_select (name : pystr) : response :=
  if bool_decide (name = py "8B") then Data [py "id-8B"] else Data [].
Definition ex_world : World :=
  world_of 1000000 ex_select (fun cid => Data [cid]).

(** The same backend when every insert raises. *)
Definition ex_world_insert_fails : World :=
  world_of 1000000 ex_select (fun _ => Raised).


(** The tracker after class [7A] has run one lap and the success screen
    has gone. *)
Definition ex_after_lap : LapTracker :=
  restore_main (exec (process_lap ex_world (py "7A")) ex_tracker).

(** The same when the insert of that lap raised. *)
Definition ex_after_failed_lap : LapTracker :=
  restore_main (exec (process_lap ex_world_insert_fails (py "7A")) ex_tracker).

(** ** Vocabulary of the properties of whole runs *)

(** A row as [add_lap_to_csv] can write it: the [class_id] column is never
    empty, and a successful row is never a duplicate. *)
Definition row_well_formed (r : Row) : Prop :=
  class_id r ≠ [] ∧ (success r = true -> scan_type r = NORMAL).

Definition is_normal (r : Row) : bool :=
  match scan_type r with NORMAL => true | DUPLICATE_SCAN => false end.

(** Number of elements of [l] that satisfy [f]. *)
Definition count {A} (f : A -> bool) (l : list A) : nat :=
  length (List.filter f l).

(** The same event, with the automatic submission replaced by the
    <Return> key. *)
Definition as_return_key (e : event) : event :=
  match e with
  | Text_change raw => Return_key raw
  | _ => e
  end.

(** All the characters of [s] are whitespace. *)
Definition all_space (s : pystr) : Prop :=
  Forall (fun c => is_space c = true) s.

(** A class table whose row for [7A] has an empty [id] cell. *)
Definition ex_tracker_empty_id : LapTracker :=
  init {[ py "7A" := [] ]} ex_barcodes true.

(** The example tracker when no Supabase client could be created. *)
Definition ex_tracker_offline : LapTracker :=
  init ex_classes ex_barcodes false.

(** A clock that runs backwards, one second per reading. *)
Definition ex_world_clock_back : World :=
  world_of (-1000000) ex_select (fun cid => Data [cid]).

(** ** Start-up: loading the two tables

    [load_classes_mapping] (lines 71-129) reads [classes_rows.csv] and the
    barcode file through [csv.DictReader].  The files are given by what
    the readers yield. *)

(** How the iteration over a reader ends: at the end of the file, with a
    [UnicodeDecodeError], or with another exception. *)
Inductive read_end : Type :=
  | End_of_file
  | Unicode_decode_error
  | Other_error.

(** What one pass over a file yields.  A row is the pair of the two cells
    the loader reads, key cell first ([name] and [id], or [barcode] and
    [Klas]); [None] is a cell on which [row[...].strip()] raises: the
    column is not in the header, or the row is too short and the cell is
    [None]. *)
Record csv_read : Type := {
  read_rows : list (option pystr * option pystr);
  read_ending : read_end
}.

Inductive encoding : Type := utf_8 | latin_1 | cp1252.

(** Line 102. *)
Definition encodings : list encoding := [utf_8; latin_1; cp1252].

Record Files : Type := {
  (** [classes_rows.csv], read as UTF-8; [None] when it does not exist *)
  classes_rows_csv : option csv_read;
  (** the barcode file as each encoding reads it; [None] when it does
      not exist *)
  barcode_csv : option (encoding -> csv_read)
}.

Inductive load_outcome : Type :=
  | Loaded            (* the loop ran to the end of the file *)
  | Decode_failed     (* UnicodeDecodeError *)
  | Failed.           (* any other exception *)

(** One [for row in reader] loop (lines 81-84 and 106-109): each row
    stores its stripped key and value in the dictionary, until the reader
    ends or a cell cannot be stripped. *)
Fixpoint load_rows (rows : list (option pystr * option pystr)) (ending : read_end)
    (d : gmap pystr pystr) : gmap pystr pystr * load_outcome :=
  match rows with
  | [] =>
      (d, match ending with
          | End_of_file => Loaded
          | Unicode_decode_error => Decode_failed
          | Other_error => Failed
          end)
  | (Some key, Some value) :: rows' =>
      load_rows rows' ending (<[strip key := strip value]> d)
  | _ :: _ => (d, Failed)
  end.

Definition load_read (rd : csv_read) (d : gmap pystr pystr) :
    gmap pystr pystr * load_outcome :=
  load_rows (read_rows rd) (read_ending rd) d.

(** The loop over the encodings (lines 102-113): the first pass that
    reaches the end of the file stops it, a [UnicodeDecodeError] moves on
    to the next encoding, any other exception leaves the loop for the
    outer handler.  The dictionary is the same object throughout. *)
Fixpoint load_barcodes (file : encoding -> csv_read) (encs : list encoding)
    (d : gmap pystr pystr) : gmap pystr pystr :=
  match encs with
  | [] => d
  | enc :: encs' =>
      match load_read (file enc) d with
      | (d', Loaded) => d'
      | (d', Decode_failed) => load_barcodes file encs' d'
      | (d', Failed) => d'
      end
  end.

(** Lines 98-125. *)
Definition load_barcode_file (fs : Files) : gmap pystr pystr :=
  match barcode_csv fs with
  | Some file => load_barcodes file encodings ∅
  | None => ∅
  end.

(** [load_classes_mapping]: the pair [(classes_dict, barcode_dict)].  An
    exception while the class file is read is caught by the outer handler
    (line 127), after which nothing more is loaded. *)
Definition load_classes_mapping (fs : Files) : gmap pystr pystr * gmap pystr pystr :=
  match classes_rows_csv fs with
  | Some rd =>
      match load_read rd ∅ with
      | (classes, Loaded) => (classes, load_barcode_file fs)
      | (classes, _) => (classes, ∅)
      end
  | None => (∅, load_barcode_file fs)
  end.

(** A cell that [.strip()] cannot be called on. *)
Definition bad_row (r : option pystr * option pystr) : Prop :=
  r.1 = None ∨ r.2 = None.

(** Keys and values of a table are stripped. *)
Definition trimmed (d : gmap pystr pystr) : Prop :=
  map_Forall (fun k v => strip k = k ∧ strip v = v) d.

(** The stripped key of a row. *)
Definition row_key (r : option pystr * option pystr) : option pystr :=
  strip <$> r.1.

(** ** Start-up: the Supabase client

    [setup_supabase] (lines 131-166) and [authenticate_user] (lines
    168-196), against the environment they read. *)

Record Env : Type := {
  (** the import of [supabase] and [dotenv] succeeded (lines 36-41) *)
  SUPABASE_AVAILABLE : bool;
  (** [load_dotenv()] returns ([true]) or raises ([false]) *)
  load_dotenv : bool;
  (** [os.getenv], once [load_dotenv] has run *)
  getenv : pystr -> option pystr;
  (** [create_client(url, key)] returns a client ([true]) or raises *)
  create_client : option pystr -> pystr -> bool
}.

Inductive setup_call : Type :=
  | Create_client (url : option pystr) (key : pystr)
  | Sign_in (email password : pystr).

(** [a or b] on two [Optional[str]]. *)
Definition py_or (a b : option pystr) : option pystr :=
  if opt_truthy a then a else b.

(** [authenticate_user], called with a client in place: the calls it
    makes.  What the sign-in returns or raises only changes what is
    printed; its own handler catches the exception and nothing in it
    assigns [self.supabase]. *)
Definition authenticate_user (env : Env) : list setup_call :=
  let user_email := getenv env (py "SUPABASE_USER_EMAIL") in
  let user_password := getenv env (py "SUPABASE_USER_PASSWORD") in
  if negb (opt_truthy user_email) || negb (opt_truthy user_password) then []
  else [Sign_in (default [] user_email) (default [] user_password)].

(** Line 142. *)
Definition env_url (env : Env) : option pystr :=
  py_or (getenv env (py "SUPABASE_URL"))
        (getenv env (py "NEXT_PUBLIC_SUPABASE_URL")).

(** Line 145. *)
Definition env_service_key (env : Env) : option pystr :=
  getenv env (py "SUPABASE_SERVICE_ROLE_KEY").

(** Line 152. *)
Definition env_key (env : Env) : option pystr :=
  py_or (py_or (getenv env (py "SUPABASE_KEY"))
               (getenv env (py "SUPABASE_ANON_KEY")))
        (getenv env (py "NEXT_PUBLIC_SUPABASE_PUBLISHABLE_KEY")).

(** [setup_supabase]: whether [self.supabase] is a client in the end, and
    the calls made on the way. *)
Definition setup_supabase (env : Env) : bool * list setup_call :=
  if negb (SUPABASE_AVAILABLE env) then (false, [])
  else if negb (load_dotenv env) then (false, [])
  else
    let url := env_url env in
    let service_key := env_service_key env in
    if opt_truthy service_key
    then
      (create_client env url (default [] service_key),
       [Create_client url (default [] service_key)])
    else
      let key := env_key env in
      if negb (opt_truthy url) || negb (opt_truthy key) then (false, [])
      else if create_client env url (default [] key)
           then (true, Create_client url (default [] key) :: authenticate_user env)
           else (false, [Create_client url (default [] key)]).

(** The tracker as [__init__] (lines 46-56) builds it from the files and
    the environment; its log holds the rows written since start-up. *)
Definition startup (fs : Files) (env : Env) : LapTracker :=
  init (load_classes_mapping fs).1 (load_classes_mapping fs).2
       (setup_supabase env).1.

(** ** Files and environments of the examples *)

(** A class file whose first row is padded and whose class [7A] comes
    twice. *)
Definition ex_class_file : csv_read :=
  {| read_rows := [ (Some (py " 7A "), Some (py "id-old"));
                    (Some (py "8B"), Some (py " id-8B"));
                    (Some (py "7A"), Some (py "id-7A")) ];
     read_ending := End_of_file |}.

(** A class file whose second row is too short. *)
Definition ex_short_class_file : csv_read :=
  {| read_rows := [ (Some (py "7A"), Some (py "id-7A"));
                    (Some (py "8B"), None) ];
     read_ending := End_of_file |}.

(** A barcode file that UTF-8 reads one row of before it fails, and that
    Latin-1 reads to the end. *)
Definition ex_barcode_file (enc : encoding) : csv_read :=
  match enc with
  | utf_8 =>
      {| read_rows := [ (Some (py "B123"), Some (py "7A")) ];
         read_ending := Unicode_decode_error |}
  | _ =>
      {| read_rows := [ (Some (py "B456"), Some (py "8B")) ];
         read_ending := End_of_file |}
  end.

Definition ex_files : Files :=
  {| classes_rows_csv := Some ex_class_file;
     barcode_csv := Some ex_barcode_file |}.

Definition ex_files_short_row : Files :=
  {| classes_rows_csv := Some ex_short_class_file;
     barcode_csv := Some ex_barcode_file |}.

(** An environment with a URL and nothing else. *)
Definition ex_env_no_key : Env :=
  {| SUPABASE_AVAILABLE := true; load_dotenv := true;
     getenv := fun name =>
       if bool_decide (name = py "SUPABASE_URL")
       then Some (py "https://x.supabase.co") else None;
     create_client := fun _ _ => true |}.

(** An environment with URL, anon key and user credentials. *)
Definition ex_env_user : Env :=
  {| SUPABASE_AVAILABLE := true; load_dotenv := true;
     getenv := fun name =>
       if bool_decide (name = py "SUPABASE_URL")
       then Some (py "https://x.supabase.co")
       else if bool_decide (name = py "SUPABASE_ANON_KEY") then Some (py "anon")
       else if bool_decide (name = py "SUPABASE_USER_EMAIL") then Some (py "a@b.c")
       else if bool_decide (name = py "SUPABASE_USER_PASSWORD") then Some (py "pw")
       else None;
     create_client := fun _ _ => true |}.

(** The tracker after one lap of [7A] under the backward clock. *)
Definition ex_after_lap_clock_back : LapTracker :=
  restore_main (exec (process_lap ex_world_clock_back (py "7A")) ex_tracker).

(** ** Trimming *)

Lemma lstrip_app_keep (s : pystr) (c : N) :
  is_space c = false -> lstrip (s ++ [c]) = lstrip s ++ [c].
Proof.
  intros Hc. induction s as [|a s IH]; simpl.
  - by rewrite Hc.
  - destruct (is_space a); [exact IH | reflexivity].
Qed.

Lemma rstrip_cons_keep (c : N) (s : pystr) :
  is_space c = false -> rstrip (c :: s) = c :: rstrip s.
Proof.
  intros Hc. unfold rstrip. simpl rev.
  rewrite lstrip_app_keep by exact Hc.
  by rewrite rev_app_distr.
Qed.

Lemma lstrip_head (s : pystr) :
  match lstrip s with [] => True | c :: _ => is_space c = false end.
Proof.
  induction s as [|a s IH]; simpl; [done|].
  destruct (is_space a) eqn:Ha; [exact IH | exact Ha].
Qed.

Lemma lstrip_fixed (c : N) (s : pystr) :
  is_space c = false -> lstrip (c :: s) = c :: s.
Proof. intros Hc. simpl. by rewrite Hc. Qed.

Lemma lstrip_idemp (s : pystr) : lstrip (lstrip s) = lstrip s.
Proof.
  pose proof (lstrip_head s) as H.
  destruct (lstrip s) as [|c t]; [done | by apply lstrip_fixed].
Qed.

Lemma rstrip_idemp (s : pystr) : rstrip (rstrip s) = rstrip s.
Proof.
  unfold rstrip. by rewrite rev_involutive, lstrip_idemp.
Qed.

Lemma strip_idemp (s : pystr) : strip (strip s) = strip s.
Proof.
  unfold strip.
  pose proof (lstrip_head s) as H.
  destruct (lstrip s) as [|c t].
  - reflexivity.
  - rewrite (rstrip_cons_keep c t H).
    rewrite (lstrip_fixed c _ H).
    rewrite <- (rstrip_cons_keep c t H).
    apply rstrip_idemp.
Qed.

Lemma truthy_true (s : pystr) : truthy s = true <-> s ≠ [].
Proof. destruct s; simpl; split; congruence. Qed.

(** ** Unfolding the monad *)

Ltac sim :=
  cbn [fst snd processing last_processed_text recent_scans classes_dict
       barcode_dict supabase csv_rows remote_calls clock_reads
       set_processing set_last_processed_text set_recent_scans
       set_classes_dict set_csv_rows set_remote_calls set_clock_reads
       timestamp class_name class_id success scan_type negb] in *.

Ltac run_m :=
  unfold exec, result, mbind, M_bind, bind, mret, M_ret, ret, gets, modify in *;
  sim.

(** Closed forms of the operations. *)

Lemma is_recent_scan_eq w name self :
  is_recent_scan w name self =
  (match recent_scans self !! name with
   | Some last_scan_time => now w (clock_reads self) - last_scan_time <? window
   | None => false
   end, set_clock_reads (S (clock_reads self)) self).
Proof.
  unfold is_recent_scan, datetime_now. run_m.
  by destruct (recent_scans self !! name).
Qed.

Lemma update_recent_scan_eq w name self :
  update_recent_scan w name self =
  (tt, set_recent_scans (<[name := now w (clock_reads self)]> (recent_scans self))
         (set_clock_reads (S (clock_reads self)) self)).
Proof. reflexivity. Qed.

Lemma add_lap_to_csv_eq w name cid ok dup self :
  add_lap_to_csv w name cid ok dup self =
  (tt,
   if csv_open_raises w (clock_reads self) then self
   else if csv_write_raises w (clock_reads self)
           || negb (utf8_encodable (strip name)
                    && utf8_encodable (or_else cid UNKNOWN))
        then set_clock_reads (S (clock_reads self)) self
        else set_csv_rows (csv_rows self ++
               [ {| timestamp := now w (clock_reads self);
                    class_name := strip name;
                    class_id := or_else cid UNKNOWN;
                    success := ok;
                    scan_type := if dup then DUPLICATE_SCAN else NORMAL |} ])
               (set_clock_reads (S (clock_reads self)) self)).
Proof.
  unfold add_lap_to_csv, datetime_now. run_m.
  destruct (csv_open_raises w _); [done|]. sim.
  by destruct (_ || _).
Qed.

Lemma add_lap_to_supabase_eq w cid self :
  add_lap_to_supabase w cid self =
  if supabase self
  then (acked (insert_laps w (length (remote_calls self)) cid
                 (now w (clock_reads self))),
        set_remote_calls
          (remote_calls self ++ [Insert cid (now w (clock_reads self))])
          (set_clock_reads (S (clock_reads self)) self))
  else (false, self).
Proof.
  unfold add_lap_to_supabase, execute_insert, datetime_now. run_m.
  destruct (supabase self); sim; [|done].
  by destruct (insert_laps _ _ _ _) as [|[|??]].
Qed.

Lemma get_class_id_by_name_eq w input self :
  get_class_id_by_name w input self =
  let name := barcode_or_literal self (strip input) in
  match classes_dict self !! name with
  | Some cid => (Some cid, self)
  | None =>
      if supabase self
      then
        let self' := set_remote_calls (remote_calls self ++ [Select name]) self in
        match select_classes w (length (remote_calls self)) name with
        | Data (cid :: _) =>
            (Some cid, set_classes_dict (<[name := cid]> (classes_dict self)) self')
        | _ => (None, self')
        end
      else (None, self)
  end.
Proof.
  unfold get_class_id_by_name, execute_select. run_m.
  destruct (classes_dict self !! _); [done|].
  destruct (supabase self); sim; [|done].
  by destruct (select_classes _ _ _) as [|[|??]].
Qed.

Lemma enters_processing_run w self raw :
  enters_processing self raw ->
  process_lap w raw self = process_lap_body w (strip raw) self.
Proof.
  intros (Hne & Hp & Hl). unfold process_lap.
  apply truthy_true in Hne. rewrite Hne, Hp. simpl.
  by rewrite bool_decide_eq_false_2.
Qed.

(** ** Anatomy of one processed submission *)

Ltac finish_m :=
  repeat first
    [ progress sim
    | progress cbn [opt_truthy or_else andb] in *
    | rewrite add_lap_to_supabase_eq
    | rewrite update_recent_scan_eq
    | rewrite add_lap_to_csv_eq
    | match goal with H : supabase _ = _ |- _ => rewrite H end
    | match goal with H : truthy _ = _ |- _ => rewrite H end ].

Lemma process_lap_body_spec w t self :
  let display_name := barcode_or_literal self (strip t) in
  let dup := result (is_recent_scan w display_name) self in
  let cid := result (get_class_id_by_name w t) self in
  let looked_up := exec (get_class_id_by_name w t) self in
  let accept := opt_truthy cid && negb dup in
  let ts := now w (S (clock_reads self)) in
  let reads :=
    (if accept then if supabase self then 2 else 1 else 0)%nat in
  let after := exec (process_lap_body w (strip t)) self in
  csv_rows after = csv_rows self ++
    (if csv_appends w (reads + S (clock_reads self))
          (logged_name self t) (or_else cid UNKNOWN)
     then
       [ {| timestamp := now w (reads + S (clock_reads self));
            class_name := logged_name self t;
            class_id := or_else cid UNKNOWN;
            success :=
              accept && supabase self
              && acked (insert_laps w (length (remote_calls looked_up))
                          (or_else cid []) ts);
            scan_type := if dup then DUPLICATE_SCAN else NORMAL |} ]
     else [])
  ∧ remote_calls after = remote_calls looked_up ++
      (if accept && supabase self then [Insert (or_else cid []) ts] else [])
  ∧ recent_scans after =
      (if accept
       then <[display_name :=
                now w (if supabase self then S (S (clock_reads self))
                       else S (clock_reads self))]> (recent_scans self)
       else recent_scans self)
  ∧ classes_dict after = classes_dict looked_up
  ∧ processing after = true
  ∧ last_processed_text after = strip t
  ∧ barcode_dict after = barcode_dict self
  ∧ supabase after = supabase self
  ∧ clock_reads after
    = ((if csv_open_raises w (reads + S (clock_reads self)) then 0 else 1)
       + (reads + S (clock_reads self)))%nat.
Proof.
  unfold process_lap_body. run_m. rewrite !is_recent_scan_eq. sim.
  rewrite !get_class_id_by_name_eq, strip_idemp.
  unfold logged_name, csv_appends, barcode_or_literal. sim. cbv zeta.
  set (name := default (strip t) (barcode_dict self !! strip t)).
  set (dup := match recent_scans self !! name with
              | Some last => now w (clock_reads self) - last <? window
              | None => false
              end).
  destruct (classes_dict self !! name) as [c|];
    [| destruct (supabase self) eqn:Hclient; sim;
       [destruct (select_classes _ _ _) as [|[|c ?]] |] ];
    try destruct (truthy c) eqn:Hc; destruct dup;
    try destruct (supabase self) eqn:Hclient';
    finish_m; rewrite ?app_nil_r; try discriminate; cbn [Nat.add];
    destruct (csv_open_raises w _), (csv_write_raises w _),
      (utf8_encodable (strip _)), (utf8_encodable _);
    cbn [andb orb negb]; finish_m; rewrite ?app_nil_r;
    repeat split; reflexivity.
Qed.

Lemma process_lap_exec w self raw :
  enters_processing self raw ->
  exec (process_lap w raw) self = exec (process_lap_body w (strip raw)) self.
Proof. intros H. unfold exec. by rewrite enters_processing_run. Qed.

Lemma csv_appends_accepted w self raw n :
  log_accepts w self raw ->
  csv_appends w n (logged_name self raw) (logged_id w self raw) = true.
Proof.
  intros (Hlog & Hname & Hid). unfold csv_appends.
  destruct (Hlog n) as [-> ->]. by rewrite Hname, Hid.
Qed.

(** A processed submission logs its row, or nothing when the append
    raises. *)
Lemma process_lap_logs_row w self raw :
  enters_processing self raw ->
  logs_row w self raw (lap_row w self raw).
Proof.
  intros Hin. unfold logs_row. rewrite process_lap_exec by done.
  destruct (process_lap_body_spec w raw self) as (Hrows & _).
  fold (logged_id w self raw) in Hrows. fold (lap_row w self raw) in Hrows.
  split.
  - rewrite Hrows. destruct (csv_appends _ _ _ _); [by right|].
    left. by rewrite app_nil_r.
  - intros Hok. by rewrite Hrows, (csv_appends_accepted w self raw _ Hok).
Qed.

(** The log after any submission: as before, or one row longer. *)
Lemma process_lap_rows w self raw :
  csv_rows (exec (process_lap w raw) self) = csv_rows self
  ∨ csv_rows (exec (process_lap w raw) self)
    = csv_rows self ++ [lap_row w self raw].
Proof.
  destruct (strip raw) as [|c t] eqn:Ht;
    [| destruct (processing self) eqn:Hp;
       [| destruct (decide (c :: t = last_processed_text self)) as [Hm|Hm]]].
  - left. unfold exec, process_lap. by rewrite Ht.
  - left. unfold exec, process_lap. by rewrite Ht, Hp.
  - left. unfold exec, process_lap. rewrite Ht, Hp. cbn [truthy negb].
    by rewrite bool_decide_eq_true_2.
  - apply (process_lap_logs_row w self raw).
    unfold enters_processing. by rewrite Ht.
Qed.

(** The lookup only ever adds [Select] calls to the trace. *)
Lemma lookup_only_selects w input self :
  ∃ sel, remote_calls (exec (get_class_id_by_name w input) self)
         = remote_calls self ++ sel
       ∧ only_selects sel.
Proof.
  unfold exec. rewrite get_class_id_by_name_eq. cbv zeta.
  destruct (classes_dict self !! _).
  - exists []. split; [by rewrite app_nil_r | constructor].
  - destruct (supabase self).
    + exists [Select (barcode_or_literal self (strip input))].
      split; [|by repeat constructor].
      by destruct (select_classes _ _ _) as [|[|??]].
    + exists []. split; [by rewrite app_nil_r | constructor].
Qed.

(** A guarded tracker ignores the submission, through both entry points. *)
Lemma guarded_ignored w self raw :
  processing self = true ∨ last_processed_text self = strip raw ->
  process_lap w raw self = (tt, self)
  ∧ check_and_process w raw self = (tt, self).
Proof.
  intros Hg. unfold check_and_process, process_lap.
  destruct (truthy (strip raw)), (processing self); simpl; try done.
  - destruct Hg as [?| ->]; [done|]. by rewrite bool_decide_eq_true_2.
  - destruct Hg as [?| ->]; [done|]. by rewrite bool_decide_eq_true_2.
Qed.

Lemma busy_ignores_submissions w self evs :
  processing self = true ->
  Forall (fun e => is_submission e = true) evs ->
  run w evs self = self.
Proof.
  intros Hbusy Hall. induction Hall as [|e evs He _ IH]; [done|].
  unfold run in *. simpl.
  assert (step w e self = self) as ->; [|exact IH].
  destruct e as [raw|raw| |]; try discriminate; unfold step, exec.
  - by rewrite (proj1 (guarded_ignored w self raw (or_introl Hbusy))).
  - by rewrite (proj2 (guarded_ignored w self raw (or_introl Hbusy))).
Qed.
(** ** The duplicate window *)

(** C5: for a team with a recorded last scan, [is_recent_scan] answers
    "duplicate" exactly when the time elapsed since that scan is below 30
    seconds; at 31 seconds the answer is "not duplicate". *)
Theorem is_recent_scan_iff_within_30s w self name last_scan_time :
  recent_scans self !! name = Some last_scan_time ->
  (result (is_recent_scan w name) self = true
     <-> now w (clock_reads self) - last_scan_time < 30 * 1000000)
  ∧ (now w (clock_reads self) = last_scan_time + 31 * 1000000 ->
     result (is_recent_scan w name) self = false).
Proof.
  intros Hlast. unfold result. rewrite is_recent_scan_eq, Hlast.
  cbn [fst]. unfold window. split.
  - rewrite Z.ltb_lt. lia.
  - intros ->. apply Z.ltb_ge. lia.
Qed.

(** C9: a team that is absent from [recent_scans] is never a duplicate:
    [is_recent_scan] returns [False] for it, and the row of its
    submission, which the log gains unless the append raises, is a NORMAL
    scan. *)
Theorem never_scanned_not_duplicate w self raw :
  recent_scans self !! canonical_name self raw = None ->
  result (is_recent_scan w (canonical_name self raw)) self = false
  ∧ (enters_processing self raw ->
     ∃ r, logs_row w self raw r ∧ scan_type r = NORMAL).
Proof.
  unfold canonical_name. intros Habs.
  assert (result (is_recent_scan w (barcode_or_literal self (strip raw))) self
          = false) as Hfresh.
  { unfold result. by rewrite is_recent_scan_eq, Habs. }
  split; [exact Hfresh|].
  intros Hin. exists (lap_row w self raw).
  split; [by apply process_lap_logs_row|].
  unfold lap_row. cbn [scan_type]. by rewrite Hfresh.
Qed.

(** C10: a blank submission leaves the tracker exactly as it was, through
    both entry points: no row, no remote call, no clock reading, no change
    to the flag, the marker, the recent scans or the class table. *)
Theorem blank_input_no_effect w self raw :
  strip raw = [] ->
  process_lap w raw self = (tt, self)
  ∧ check_and_process w raw self = (tt, self).
Proof.
  intros Hblank. unfold check_and_process, process_lap. rewrite Hblank.
  simpl. split; [done|].
  destruct (processing self); [done|].
  by destruct (bool_decide ([] = last_processed_text self)).
Qed.

(** ** The local log and the remote insert *)



(** C6: when the canonical team name is within its cooldown, the
    submission adds no [Insert] to the remote trace, resolved id or not,
    and the recorded scan time stays as it was; all it can add is its row
    in the local log, unsuccessful and marked DUPLICATE_SCAN, which the
    log gains unless the append raises. *)
Theorem duplicate_skips_remote_insert w self raw :
  enters_processing self raw ->
  result (is_recent_scan w (canonical_name self raw)) self = true ->
  (∃ sel, remote_calls (exec (process_lap w raw) self) = remote_calls self ++ sel
        ∧ only_selects sel)
  ∧ (∃ r, logs_row w self raw r
        ∧ class_id r = or_else (result (get_class_id_by_name w raw) self) UNKNOWN
        ∧ success r = false
        ∧ scan_type r = DUPLICATE_SCAN)
  ∧ recent_scans (exec (process_lap w raw) self) = recent_scans self.
Proof.
  intros Hin Hdup. unfold canonical_name in Hdup.
  split; [|split].
  - rewrite process_lap_exec by done.
    destruct (process_lap_body_spec w raw self) as (_ & Hcalls & _).
    rewrite Hdup, andb_false_r in Hcalls. cbn [andb] in Hcalls.
    rewrite app_nil_r in Hcalls. rewrite Hcalls. apply lookup_only_selects.
  - exists (lap_row w self raw). split; [by apply process_lap_logs_row|].
    unfold lap_row, logged_id. cbn [class_id success scan_type].
    by rewrite Hdup, andb_false_r.
  - rewrite process_lap_exec by done.
    destruct (process_lap_body_spec w raw self) as (_ & _ & Hscans & _).
    by rewrite Hdup, andb_false_r in Hscans.
Qed.



(** ** The class table as a cache *)

Lemma lookup_keeps_entries w input self k v :
  classes_dict self !! k = Some v ->
  classes_dict (exec (get_class_id_by_name w input) self) !! k = Some v.
Proof.
  intros Hk. unfold exec. rewrite get_class_id_by_name_eq. cbv zeta.
  destruct (classes_dict self !! barcode_or_literal _ _) eqn:Hname; [done|].
  destruct (supabase self); [|done].
  destruct (select_classes _ _ _) as [|[|cid ?]]; sim; try done.
  rewrite lookup_insert_ne; [done|]. congruence.
Qed.

Lemma lookup_keeps_barcodes w input self :
  barcode_dict (exec (get_class_id_by_name w input) self) = barcode_dict self.
Proof.
  unfold exec. rewrite get_class_id_by_name_eq. cbv zeta.
  destruct (classes_dict self !! _); [done|].
  destruct (supabase self); [|done].
  by destruct (select_classes _ _ _) as [|[|??]].
Qed.

Lemma process_lap_keeps w raw self k v :
  classes_dict self !! k = Some v ->
  classes_dict (exec (process_lap w raw) self) !! k = Some v
  ∧ barcode_dict (exec (process_lap w raw) self) = barcode_dict self.
Proof.
  intros Hk. unfold exec, process_lap.
  destruct (negb (truthy (strip raw))); [done|].
  destruct (processing self); [done|].
  destruct (bool_decide _); [done|].
  destruct (process_lap_body_spec w raw self)
    as (_ & _ & _ & Hcls & _ & _ & Hbar & _).
  unfold exec in Hcls, Hbar. rewrite Hcls, Hbar.
  split; [|done]. by apply lookup_keeps_entries.
Qed.

Lemma step_keeps w e self k v :
  classes_dict self !! k = Some v ->
  classes_dict (step w e self) !! k = Some v
  ∧ barcode_dict (step w e self) = barcode_dict self.
Proof.
  intros Hk. destruct e as [raw|raw| |]; cbn [step]; try done.
  - by apply process_lap_keeps.
  - unfold exec, check_and_process.
    destruct (processing self); [done|].
    destruct (bool_decide _); [done|].
    destruct (_ && _); [|done].
    by apply process_lap_keeps.
Qed.

Lemma run_keeps w evs self k v :
  classes_dict self !! k = Some v ->
  classes_dict (run w evs self) !! k = Some v
  ∧ barcode_dict (run w evs self) = barcode_dict self.
Proof.
  revert self. induction evs as [|e evs IH]; intros self Hk; [done|].
  unfold run in *. cbn [foldl].
  destruct (step_keeps w e self k v Hk) as [Hk' Hb'].
  destruct (IH _ Hk') as [Hk'' Hb'']. split; [done|]. congruence.
Qed.

(** C7: once [get_class_id_by_name] has found a name through the backend,
    the name is in [classes_dict]; from then on, whatever else the tracker
    does, looking the same input up again returns the same id and leaves
    the tracker untouched, so no remote call is made.  In general a name
    present in [classes_dict] is answered from it without a remote call. *)
Theorem remote_lookup_is_cached w self input cid :
  (classes_dict self !! canonical_name self input = None ->
   result (get_class_id_by_name w input) self = Some cid ->
   classes_dict (exec (get_class_id_by_name w input) self)
     !! canonical_name self input = Some cid
   ∧ ∀ evs,
       let later := run w evs (exec (get_class_id_by_name w input) self) in
       get_class_id_by_name w input later = (Some cid, later)
       ∧ (enters_processing later input ->
          ∀ name, Select name ∉ drop (length (remote_calls later))
                                  (remote_calls (exec (process_lap w input) later))))
  ∧ (classes_dict self !! canonical_name self input = Some cid ->
     get_class_id_by_name w input self = (Some cid, self)).
Proof.
  unfold canonical_name.
  assert (∀ s, barcode_dict s = barcode_dict self ->
               classes_dict s !! barcode_or_literal self (strip input) = Some cid ->
               get_class_id_by_name w input s = (Some cid, s)) as Hhit.
  { intros s Hbar Hs. rewrite get_class_id_by_name_eq. cbv zeta.
    unfold barcode_or_literal in *. by rewrite Hbar, Hs. }
  split; [|by apply Hhit].
  intros Hmiss Hres.
  assert (classes_dict (exec (get_class_id_by_name w input) self)
            !! barcode_or_literal self (strip input) = Some cid) as Hcached.
  { revert Hres. unfold exec, result. rewrite get_class_id_by_name_eq.
    cbv zeta. rewrite Hmiss.
    destruct (supabase self); [|done].
    destruct (select_classes _ _ _) as [|[|c ?]]; sim; try done.
    intros [= ->]. apply lookup_insert_eq. }
  split; [exact Hcached|].
  intros evs. destruct (run_keeps w evs _ _ _ Hcached) as [Hk Hb].
  set (later := run w evs _) in *.
  assert (get_class_id_by_name w input later = (Some cid, later)) as Hlater.
  { apply Hhit; [|exact Hk]. by rewrite Hb, lookup_keeps_barcodes. }
  split; [exact Hlater|].
  intros Hin name. rewrite process_lap_exec by done.
  destruct (process_lap_body_spec w input later) as (_ & Hcalls & _).
  rewrite Hcalls.
  replace (exec (get_class_id_by_name w input) later) with later
    by (unfold exec; by rewrite Hlater).
  rewrite drop_app_length.
  destruct (_ && _); [|apply not_elem_of_nil].
  rewrite list_elem_of_singleton. discriminate.
Qed.

(** ** The re-entrancy guard *)

Lemma process_lap_marks_busy w self raw :
  enters_processing self raw ->
  processing (exec (process_lap w raw) self) = true
  ∧ last_processed_text (exec (process_lap w raw) self) = strip raw.
Proof.
  intros Hin. rewrite process_lap_exec by done.
  by destruct (process_lap_body_spec w raw self)
    as (_ & _ & _ & _ & Hp & Hl & _).
Qed.

(** C8: once [process_lap] has taken a submission, the flag is set and the
    marker holds its text; until the restore thread runs, every submission
    is ignored (the tracker does not change, so nothing is logged), and
    between the two assignments of [restore_main] a submission of the same
    text is still ignored.  When [restore_main] has finished, the flag is
    reset and the marker is empty, and the same text is processed again:
    it passes the guards, sets the flag and the marker anew and logs its
    row, unless the append raises. *)
Theorem same_text_ignored_until_restore w self raw :
  enters_processing self raw ->
  (processing (exec (process_lap w raw) self) = true
   ∧ last_processed_text (exec (process_lap w raw) self) = strip raw)
  ∧ (∀ evs, Forall (fun e => is_submission e = true) evs ->
       run w evs (exec (process_lap w raw) self) = exec (process_lap w raw) self)
  ∧ (∀ raw', strip raw' = strip raw ->
       step w (Return_key raw') (restore_main_345 (exec (process_lap w raw) self))
         = restore_main_345 (exec (process_lap w raw) self)
       ∧ step w (Text_change raw') (restore_main_345 (exec (process_lap w raw) self))
         = restore_main_345 (exec (process_lap w raw) self))
  ∧ processing (restore_main (exec (process_lap w raw) self)) = false
  ∧ last_processed_text (restore_main (exec (process_lap w raw) self)) = []
  ∧ enters_processing (restore_main (exec (process_lap w raw) self)) raw
  ∧ processing (exec (process_lap w raw)
                  (restore_main (exec (process_lap w raw) self))) = true
  ∧ last_processed_text (exec (process_lap w raw)
                           (restore_main (exec (process_lap w raw) self)))
    = strip raw
  ∧ ∃ r, logs_row w (restore_main (exec (process_lap w raw) self)) raw r.
Proof.
  intros Hin.
  destruct (process_lap_marks_busy w self raw Hin) as [Hbusy Hmark].
  set (busy := exec (process_lap w raw) self) in *.
  assert (enters_processing (restore_main busy) raw) as Hagain.
  { destruct Hin as (Hne & _). by repeat split. }
  destruct (process_lap_marks_busy w (restore_main busy) raw Hagain)
    as [Hbusy' Hmark'].
  split; [done|].
  split; [|split; [|split; [|split; [|split; [|split; [|split]]]]]].
  - intros evs Hall. by apply busy_ignores_submissions.
  - intros raw' Heq. cbn [step]. unfold exec.
    destruct (guarded_ignored w (restore_main_345 busy) raw') as [-> ->]; [|done].
    right. by rewrite Heq.
  - reflexivity.
  - reflexivity.
  - exact Hagain.
  - exact Hbusy'.
  - exact Hmark'.
  - exists (lap_row w (restore_main busy) raw).
    by apply process_lap_logs_row.
Qed.

(** ** Barcode and class name *)

Lemma lstrip_strip (s : pystr) : lstrip (strip s) = strip s.
Proof.
  unfold strip. pose proof (lstrip_head s) as H.
  destruct (lstrip s) as [|c t]; [reflexivity|].
  rewrite (rstrip_cons_keep c t H). by apply lstrip_fixed.
Qed.

Lemma strip_fixed_ends (s : pystr) :
  strip s = s -> lstrip s = s ∧ rstrip s = s.
Proof.
  intros Hs. split.
  - rewrite <- Hs at 1. by rewrite lstrip_strip.
  - rewrite <- Hs at 1. unfold strip. by rewrite rstrip_idemp.
Qed.

Lemma lstrip_app_fixed (s x : pystr) :
  lstrip s = s -> s ≠ [] -> lstrip (s ++ x) = s ++ x.
Proof.
  intros Hs Hne. pose proof (lstrip_head s) as H. rewrite Hs in H.
  destruct s as [|c t]; [done|]. by apply lstrip_fixed.
Qed.

Lemma strip_between (b m c : pystr) :
  strip b = b -> b ≠ [] -> strip c = c -> c ≠ [] ->
  strip (b ++ m ++ c) = b ++ m ++ c.
Proof.
  intros Hb Hbne Hc Hcne.
  destruct (strip_fixed_ends b Hb) as [Hlb _].
  destruct (strip_fixed_ends c Hc) as [_ Hrc].
  unfold strip. rewrite (lstrip_app_fixed b _ Hlb Hbne).
  unfold rstrip in *. rewrite !rev_app_distr, <- !app_assoc.
  assert (lstrip (rev c) = rev c) as Hlc.
  { rewrite <- Hrc at 2. by rewrite rev_involutive. }
  rewrite lstrip_app_fixed; [| exact Hlc |].
  - by rewrite !rev_app_distr, !rev_involutive, <- !app_assoc.
  - intros Hnil. apply Hcne. by rewrite <- (rev_involutive c), Hnil.
Qed.

(** C2, as the code has it: for a barcode [B] of class [C], where [C] is
    not a barcode itself, a submission of [B] and a submission of [C] in
    the same state resolve to the same id, and their rows, each of which
    the log gains unless its append raises, agree on [timestamp],
    [class_id], [success] and [scan_type]; the [class_name] column is
    [B → C] for the barcode and [C] for the name. *)
Theorem barcode_and_name_same_outcome w self B C :
  barcode_dict self !! B = Some C ->
  barcode_dict self !! C = None ->
  strip B = B -> strip C = C ->
  enters_processing self B -> enters_processing self C ->
  result (get_class_id_by_name w B) self = result (get_class_id_by_name w C) self
  ∧ ∃ rB rC,
      logs_row w self B rB
      ∧ logs_row w self C rC
      ∧ timestamp rB = timestamp rC
      ∧ class_id rB = class_id rC
      ∧ success rB = success rC
      ∧ scan_type rB = scan_type rC
      ∧ class_name rB = B ++ arrow ++ C
      ∧ class_name rC = C.
Proof.
  intros HB HC HsB HsC HinB HinC.
  assert (B ≠ C) as Hne by (intros ->; congruence).
  assert (barcode_or_literal self (strip B) = C) as HdB.
  { unfold barcode_or_literal. by rewrite HsB, HB. }
  assert (barcode_or_literal self (strip C) = C) as HdC.
  { unfold barcode_or_literal. by rewrite HsC, HC. }
  assert (get_class_id_by_name w B self = get_class_id_by_name w C self) as Hsame.
  { rewrite !get_class_id_by_name_eq. cbv zeta. by rewrite HdB, HdC. }
  split; [unfold result; by rewrite Hsame|].
  exists (lap_row w self B), (lap_row w self C).
  split; [by apply process_lap_logs_row|].
  split; [by apply process_lap_logs_row|].
  unfold lap_row, logged_id, logged_name, result, exec.
  cbn [timestamp class_id success scan_type class_name].
  rewrite HdB, HdC, Hsame. repeat split.
  - rewrite HsB, bool_decide_eq_true_2 by done.
    destruct HinB as (HBne & _), HinC as (HCne & _).
    rewrite HsB in HBne. rewrite HsC in HCne.
    by apply strip_between.
  - rewrite HsC, bool_decide_eq_false_2 by (intros H; by apply H).
    exact HsC.
Qed.

(** C2 as stated fails: with barcode [B123] for class [7A], the row logged
    for [B123] has [B123 → 7A] in the [class_name] column, the row logged
    for [7A] has [7A]. *)
Lemma barcode_row_names_the_barcode :
  barcode_dict ex_tracker !! py "B123" = Some (py "7A")
  ∧ class_name <$> csv_rows (exec (process_lap ex_world (py "B123")) ex_tracker)
    = [py "B123" ++ arrow ++ py "7A"]
  ∧ class_name <$> csv_rows (exec (process_lap ex_world (py "7A")) ex_tracker)
    = [py "7A"]
  ∧ class_name <$> csv_rows (exec (process_lap ex_world (py "B123")) ex_tracker)
    ≠ class_name <$> csv_rows (exec (process_lap ex_world (py "7A")) ex_tracker).
Proof. vm_compute. repeat split; discriminate. Qed.

(** ** The cooldown and the outcome of the insert *)

(** Line 505 runs whatever line 504 returned: an accepted submission
    (non-empty id, not a duplicate) records the scan time of its team even
    when the insert was not acknowledged. *)
Lemma accepted_submission_marks_scanned w self raw c :
  enters_processing self raw ->
  result (get_class_id_by_name w raw) self = Some c -> c ≠ [] ->
  result (is_recent_scan w (canonical_name self raw)) self = false ->
  is_Some (recent_scans (exec (process_lap w raw) self) !! canonical_name self raw).
Proof.
  intros Hin Hc Hne Hdup. rewrite process_lap_exec by done.
  unfold canonical_name in *.
  destruct (process_lap_body_spec w raw self) as (_ & _ & Hscans & _).
  rewrite Hscans, Hc, Hdup. cbn [opt_truthy negb].
  apply truthy_true in Hne. rewrite Hne. cbn [andb].
  rewrite lookup_insert_eq. by eexists.
Qed.

(** C1 fails on the code: class [7A] is submitted while every insert
    raises.  The row is logged with [success = False], and the scan time
    of [7A] is recorded all the same; a second submission two seconds
    later, after the success screen has gone, is classified as duplicate
    and is not sent to the backend. *)
Lemma failed_insert_starts_cooldown :
  csv_rows (exec (process_lap ex_world_insert_fails (py "7A")) ex_tracker)
    = [ {| timestamp := 3000000; class_name := py "7A";
           class_id := py "id-7A"; success := false; scan_type := NORMAL |} ]
  ∧ remote_calls (exec (process_lap ex_world_insert_fails (py "7A")) ex_tracker)
    = [Insert (py "id-7A") 1000000]
  ∧ recent_scans ex_tracker !! py "7A" = None
  ∧ recent_scans (exec (process_lap ex_world_insert_fails (py "7A")) ex_tracker)
      !! py "7A" = Some 2000000
  ∧ result (is_recent_scan ex_world_insert_fails (py "7A")) ex_after_failed_lap = true
  ∧ csv_rows (exec (process_lap ex_world_insert_fails (py "7A")) ex_after_failed_lap)
    = [ {| timestamp := 3000000; class_name := py "7A";
           class_id := py "id-7A"; success := false; scan_type := NORMAL |};
        {| timestamp := 5000000; class_name := py "7A";
           class_id := py "id-7A"; success := false;
           scan_type := DUPLICATE_SCAN |} ]
  ∧ remote_calls (exec (process_lap ex_world_insert_fails (py "7A")) ex_after_failed_lap)
    = [Insert (py "id-7A") 1000000].
Proof. vm_compute. repeat split; reflexivity. Qed.

(** ** The theorems at work on the example race *)

Ltac by_evaluation := vm_compute; repeat split; (reflexivity || discriminate).

Lemma ex_world_reliable : reliable_log ex_world.
Proof. intros n. by split. Qed.

Ltac example_accepts := split; [apply ex_world_reliable | by_evaluation].

(** C5 on the example: class [7A], two seconds after its lap. *)
Lemma is_recent_scan_iff_within_30s_witness :
  recent_scans ex_after_lap !! py "7A" = Some 2000000
  ∧ ((result (is_recent_scan ex_world (py "7A")) ex_after_lap = true
      <-> now ex_world (clock_reads ex_after_lap) - 2000000 < 30 * 1000000)
     ∧ (now ex_world (clock_reads ex_after_lap) = 2000000 + 31 * 1000000 ->
        result (is_recent_scan ex_world (py "7A")) ex_after_lap = false)).
Proof.
  assert (recent_scans ex_after_lap !! py "7A" = Some 2000000) as H
    by by_evaluation.
  split; [exact H|].
  exact (is_recent_scan_iff_within_30s ex_world ex_after_lap (py "7A") 2000000 H).
Defined.

(** C9 on the example: the first scan of barcode [B123]. *)
Lemma never_scanned_not_duplicate_witness :
  recent_scans ex_tracker !! canonical_name ex_tracker (py "B123") = None
  ∧ enters_processing ex_tracker (py "B123")
  ∧ result (is_recent_scan ex_world (canonical_name ex_tracker (py "B123")))
      ex_tracker = false
  ∧ ∃ r, csv_rows (exec (process_lap ex_world (py "B123")) ex_tracker)
         = csv_rows ex_tracker ++ [r]
       ∧ scan_type r = NORMAL.
Proof.
  assert (recent_scans ex_tracker !! canonical_name ex_tracker (py "B123") = None)
    as H by by_evaluation.
  assert (enters_processing ex_tracker (py "B123")) as Hin by by_evaluation.
  assert (log_accepts ex_world ex_tracker (py "B123")) as Hok
    by example_accepts.
  destruct (never_scanned_not_duplicate ex_world ex_tracker (py "B123") H)
    as [Hfalse Hrow].
  destruct (Hrow Hin) as (r & [_ Hr] & Hnormal).
  split; [exact H|]. split; [exact Hin|]. split; [exact Hfalse|].
  exists r. split; [exact (Hr Hok) | exact Hnormal].
Defined.

(** C10 on the example: three spaces. *)
Lemma blank_input_no_effect_witness :
  strip (py "   ") = []
  ∧ process_lap ex_world (py "   ") ex_after_lap = (tt, ex_after_lap)
  ∧ check_and_process ex_world (py "   ") ex_after_lap = (tt, ex_after_lap).
Proof.
  assert (strip (py "   ") = []) as H by by_evaluation.
  split; [exact H|].
  exact (blank_input_no_effect ex_world ex_after_lap (py "   ") H).
Defined.


(** C6 on the example: barcode [B123] right after a lap of [7A]. *)
Lemma duplicate_skips_remote_insert_witness :
  enters_processing ex_after_lap (py "B123")
  ∧ result (is_recent_scan ex_world (canonical_name ex_after_lap (py "B123")))
      ex_after_lap = true
  ∧ (∃ sel, remote_calls (exec (process_lap ex_world (py "B123")) ex_after_lap)
            = remote_calls ex_after_lap ++ sel
          ∧ only_selects sel)
  ∧ (∃ r, csv_rows (exec (process_lap ex_world (py "B123")) ex_after_lap)
          = csv_rows ex_after_lap ++ [r]
        ∧ class_id r
          = or_else (result (get_class_id_by_name ex_world (py "B123")) ex_after_lap)
              UNKNOWN
        ∧ success r = false
        ∧ scan_type r = DUPLICATE_SCAN)
  ∧ recent_scans (exec (process_lap ex_world (py "B123")) ex_after_lap)
    = recent_scans ex_after_lap.
Proof.
  assert (enters_processing ex_after_lap (py "B123")) as Hin by by_evaluation.
  assert (result (is_recent_scan ex_world (canonical_name ex_after_lap (py "B123")))
            ex_after_lap = true) as Hdup by by_evaluation.
  assert (log_accepts ex_world ex_after_lap (py "B123")) as Hok
    by example_accepts.
  destruct (duplicate_skips_remote_insert ex_world ex_after_lap (py "B123")
              Hin Hdup) as (Hsel & (r & [_ Hr] & Hfields) & Hscans).
  split; [exact Hin|]. split; [exact Hdup|]. split; [exact Hsel|].
  split; [|exact Hscans].
  exists r. split; [exact (Hr Hok) | exact Hfields].
Defined.


(** C7 on the example: [8B] is learned from the backend, [B123] is
    answered from the local table. *)
Lemma remote_lookup_is_cached_witness :
  classes_dict ex_tracker !! canonical_name ex_tracker (py "8B") = None
  ∧ result (get_class_id_by_name ex_world (py "8B")) ex_tracker = Some (py "id-8B")
  ∧ classes_dict (exec (get_class_id_by_name ex_world (py "8B")) ex_tracker)
      !! canonical_name ex_tracker (py "8B") = Some (py "id-8B")
  ∧ get_class_id_by_name ex_world (py "8B")
      (run ex_world [Return_key (py "7A"); Restore_345; Restore_346]
         (exec (get_class_id_by_name ex_world (py "8B")) ex_tracker))
    = (Some (py "id-8B"),
       run ex_world [Return_key (py "7A"); Restore_345; Restore_346]
         (exec (get_class_id_by_name ex_world (py "8B")) ex_tracker))
  ∧ classes_dict ex_tracker !! canonical_name ex_tracker (py "B123")
    = Some (py "id-7A")
  ∧ get_class_id_by_name ex_world (py "B123") ex_tracker
    = (Some (py "id-7A"), ex_tracker).
Proof.
  assert (classes_dict ex_tracker !! canonical_name ex_tracker (py "8B") = None)
    as Hmiss by by_evaluation.
  assert (result (get_class_id_by_name ex_world (py "8B")) ex_tracker
          = Some (py "id-8B")) as Hres by by_evaluation.
  assert (classes_dict ex_tracker !! canonical_name ex_tracker (py "B123")
          = Some (py "id-7A")) as Hhit by by_evaluation.
  destruct (remote_lookup_is_cached ex_world ex_tracker (py "8B") (py "id-8B"))
    as [Hremote _].
  destruct (Hremote Hmiss Hres) as [Hcached Hlater].
  destruct (Hlater [Return_key (py "7A"); Restore_345; Restore_346])
    as [Hagain _].
  destruct (remote_lookup_is_cached ex_world ex_tracker (py "B123") (py "id-7A"))
    as [_ Hlocal].
  split; [exact Hmiss|]. split; [exact Hres|]. split; [exact Hcached|].
  split; [exact Hagain|]. split; [exact Hhit|]. exact (Hlocal Hhit).
Defined.

(** C8 on the example: class [7A] while its success screen is shown. *)
Lemma same_text_ignored_until_restore_witness :
  enters_processing ex_tracker (py "7A")
  ∧ run ex_world [Text_change (py "7A"); Return_key (py " 7A"); Text_change (py "8B")]
      (exec (process_lap ex_world (py "7A")) ex_tracker)
    = exec (process_lap ex_world (py "7A")) ex_tracker
  ∧ step ex_world (Text_change (py "7A "))
      (restore_main_345 (exec (process_lap ex_world (py "7A")) ex_tracker))
    = restore_main_345 (exec (process_lap ex_world (py "7A")) ex_tracker)
  ∧ last_processed_text (restore_main (exec (process_lap ex_world (py "7A")) ex_tracker))
    = []
  ∧ processing (exec (process_lap ex_world (py "7A"))
                  (restore_main (exec (process_lap ex_world (py "7A")) ex_tracker)))
    = true
  ∧ ∃ r, csv_rows (exec (process_lap ex_world (py "7A"))
                     (restore_main (exec (process_lap ex_world (py "7A")) ex_tracker)))
         = csv_rows (exec (process_lap ex_world (py "7A")) ex_tracker) ++ [r].
Proof.
  assert (enters_processing ex_tracker (py "7A")) as Hin by by_evaluation.
  assert (log_accepts ex_world
            (restore_main (exec (process_lap ex_world (py "7A")) ex_tracker))
            (py "7A")) as Hok by example_accepts.
  destruct (same_text_ignored_until_restore ex_world ex_tracker (py "7A") Hin)
    as (_ & Hbusy & Hmid & _ & Hclear & _ & Hflag & _ & r & _ & Hrow).
  split; [exact Hin|].
  split; [|split; [|split; [exact Hclear | split; [exact Hflag|]]]].
  - apply Hbusy. repeat constructor.
  - apply (Hmid (py "7A ")). by_evaluation.
  - exists r. exact (Hrow Hok).
Defined.

(** C2, as the code has it, on the example: [B123] and [7A]. *)
Lemma barcode_and_name_same_outcome_witness :
  barcode_dict ex_tracker !! py "B123" = Some (py "7A")
  ∧ barcode_dict ex_tracker !! py "7A" = None
  ∧ strip (py "B123") = py "B123" ∧ strip (py "7A") = py "7A"
  ∧ enters_processing ex_tracker (py "B123")
  ∧ enters_processing ex_tracker (py "7A")
  ∧ result (get_class_id_by_name ex_world (py "B123")) ex_tracker
    = result (get_class_id_by_name ex_world (py "7A")) ex_tracker
  ∧ ∃ rB rC,
      csv_rows (exec (process_lap ex_world (py "B123")) ex_tracker)
        = csv_rows ex_tracker ++ [rB]
      ∧ csv_rows (exec (process_lap ex_world (py "7A")) ex_tracker)
        = csv_rows ex_tracker ++ [rC]
      ∧ timestamp rB = timestamp rC
      ∧ class_id rB = class_id rC
      ∧ success rB = success rC
      ∧ scan_type rB = scan_type rC
      ∧ class_name rB = py "B123" ++ arrow ++ py "7A"
      ∧ class_name rC = py "7A".
Proof.
  assert (barcode_dict ex_tracker !! py "B123" = Some (py "7A")) as HB
    by by_evaluation.
  assert (barcode_dict ex_tracker !! py "7A" = None) as HC by by_evaluation.
  assert (strip (py "B123") = py "B123") as HsB by by_evaluation.
  assert (strip (py "7A") = py "7A") as HsC by by_evaluation.
  assert (enters_processing ex_tracker (py "B123")) as HinB by by_evaluation.
  assert (enters_processing ex_tracker (py "7A")) as HinC by by_evaluation.
  assert (log_accepts ex_world ex_tracker (py "B123")) as HokB
    by example_accepts.
  assert (log_accepts ex_world ex_tracker (py "7A")) as HokC
    by example_accepts.
  destruct (barcode_and_name_same_outcome ex_world ex_tracker (py "B123")
              (py "7A") HB HC HsB HsC HinB HinC)
    as (Hid & rB & rC & [_ HrB] & [_ HrC] & Hfields).
  repeat (split; [assumption|]).
  exists rB, rC. split; [exact (HrB HokB)|]. split; [exact (HrC HokC)|].
  exact Hfields.
Defined.

(** * Further properties of the pipeline *)

(** ** Events, case by case *)

Lemma check_and_process_eq w raw self :
  check_and_process w raw self = process_lap w raw self.
Proof.
  unfold check_and_process, process_lap.
  destruct (strip raw) as [|c t] eqn:Ht; cbn [truthy negb andb length].
  - destruct (processing self); [done|]. by destruct (bool_decide _).
  - destruct (processing self); [done|]. by destruct (bool_decide _).
Qed.

Lemma process_lap_cases w raw self :
  enters_processing self raw
  ∨ (¬ enters_processing self raw ∧ process_lap w raw self = (tt, self)).
Proof.
  unfold process_lap, enters_processing.
  destruct (strip raw) as [|c t] eqn:Ht; cbn [truthy negb].
  - right. split; [|done]. by intros [? _].
  - destruct (processing self) eqn:Hp.
    + right. split; [|done]. by intros (_ & ? & _).
    + destruct (decide (c :: t = last_processed_text self)) as [He|He].
      * right. rewrite bool_decide_eq_true_2 by done.
        split; [|done]. by intros (_ & _ & ?).
      * left. by repeat split.
Qed.

Lemma step_cases w e s :
  step w e s = s
  ∨ (∃ raw, enters_processing s raw
            ∧ step w e s = exec (process_lap_body w (strip raw)) s)
  ∨ step w e s = restore_main_345 s
  ∨ step w e s = restore_main_346 s.
Proof.
  destruct e as [raw|raw| |]; cbn [step]; [| |by right; right; left|by do 3 right].
  - destruct (process_lap_cases w raw s) as [Hin|[_ Hsame]].
    + right; left. exists raw. split; [done|]. by apply process_lap_exec.
    + left. unfold exec. by rewrite Hsame.
  - unfold exec. rewrite check_and_process_eq.
    destruct (process_lap_cases w raw s) as [Hin|[_ Hsame]].
    + right; left. exists raw. split; [done|]. by apply process_lap_exec.
    + left. by rewrite Hsame.
Qed.

(** A property kept by every event is kept by every run. *)
Lemma run_invariant w (I : LapTracker -> Prop) :
  (∀ e s, I s -> I (step w e s)) ->
  ∀ evs s, I s -> I (run w evs s).
Proof.
  intros Hstep evs. induction evs as [|e evs IH]; intros s Hs; [done|].
  unfold run in *. cbn [foldl]. apply IH. by apply Hstep.
Qed.

(** What the lookup leaves alone. *)
Lemma lookup_frame w input s :
  csv_rows (exec (get_class_id_by_name w input) s) = csv_rows s
  ∧ recent_scans (exec (get_class_id_by_name w input) s) = recent_scans s
  ∧ supabase (exec (get_class_id_by_name w input) s) = supabase s
  ∧ classes_dict s ⊆ classes_dict (exec (get_class_id_by_name w input) s).
Proof.
  unfold exec. rewrite get_class_id_by_name_eq. cbv zeta.
  destruct (classes_dict s !! _) eqn:Hk; [done|].
  destruct (supabase s) eqn:Hs; sim; [|done].
  destruct (select_classes _ _ _) as [|[|cid ?]]; sim; try done.
  repeat split; [done|]. by apply insert_subseteq.
Qed.

(** ** The two entry points *)

(** X1: the automatic submission ([check_and_process]) and the <Return> key
    ([process_lap]) do the same thing: replacing one by the other anywhere
    in a run leads to the same tracker. *)
Theorem text_change_same_as_return_key w evs self :
  run w (as_return_key <$> evs) self = run w evs self.
Proof.
  revert self. induction evs as [|e evs IH]; intros self; [done|].
  unfold run in *. cbn [fmap list_fmap foldl].
  rewrite IH. f_equal.
  destruct e as [raw|raw| |]; cbn [as_return_key step]; try done.
  unfold exec. by rewrite check_and_process_eq.
Qed.

(** ** Append-only log and trace, stable tables *)

(** X2: whatever happens, rows already in the CSV log and remote calls already
    made stay where they are: both lists only grow at the end. *)
Theorem log_and_trace_append_only w evs self :
  csv_rows self `prefix_of` csv_rows (run w evs self)
  ∧ remote_calls self `prefix_of` remote_calls (run w evs self).
Proof.
  apply (run_invariant w (fun s =>
    csv_rows self `prefix_of` csv_rows s
    ∧ remote_calls self `prefix_of` remote_calls s)); [|done].
  intros e s [Hrows Hcalls].
  destruct (step_cases w e s) as [->|[(raw & _ & ->)|[->| ->]]]; try done.
  destruct (process_lap_body_spec w raw s) as (Hr & Hc & _).
  destruct (lookup_only_selects w raw s) as (sel & Hsel & _).
  rewrite Hr, Hc, Hsel. split.
  - by apply prefix_app_r.
  - by do 2 apply prefix_app_r.
Qed.

(** X3: no event changes the barcode table or the presence of the Supabase
    client, and the class table only gains entries. *)
Theorem tables_only_grow w evs self :
  barcode_dict (run w evs self) = barcode_dict self
  ∧ supabase (run w evs self) = supabase self
  ∧ classes_dict self ⊆ classes_dict (run w evs self).
Proof.
  apply (run_invariant w (fun s =>
    barcode_dict s = barcode_dict self
    ∧ supabase s = supabase self
    ∧ classes_dict self ⊆ classes_dict s)); [|done].
  intros e s (Hb & Hc & Hcls).
  destruct (step_cases w e s) as [->|[(raw & _ & ->)|[->| ->]]]; try done.
  destruct (process_lap_body_spec w raw s)
    as (_ & _ & _ & Hcls' & _ & _ & Hb' & Hc' & _).
  destruct (lookup_frame w raw s) as (_ & _ & _ & Hsub).
  rewrite Hb', Hc', Hcls'. repeat split; try done.
  by transitivity (classes_dict s).
Qed.

(** ** What the log and the trace always look like *)

Lemma or_else_UNKNOWN_nonempty cid : or_else cid UNKNOWN ≠ [].
Proof.
  destruct cid as [[|c t]|]; cbn [or_else truthy]; try discriminate.
Qed.

(** X4: whatever the tracker and whatever happens to it, every row appended
    to the log has a non-empty [class_id] column (an id or [UNKNOWN]), and
    no appended row is both successful and a duplicate. *)
Theorem new_rows_well_formed w evs self :
  ∃ new, csv_rows (run w evs self) = csv_rows self ++ new
       ∧ Forall row_well_formed new.
Proof.
  apply (run_invariant w (fun s =>
    ∃ new, csv_rows s = csv_rows self ++ new ∧ Forall row_well_formed new));
    [|exists []; by rewrite app_nil_r].
  intros e s (new & Hnew & Hall).
  destruct (step_cases w e s) as [->|[(raw & _ & ->)|[->| ->]]];
    try by exists new.
  destruct (process_lap_body_spec w raw s) as (Hr & _).
  rewrite Hr, Hnew, <- app_assoc. eexists. split; [reflexivity|].
  apply Forall_app. split; [done|].
  destruct (csv_appends _ _ _ _); [|constructor].
  constructor; [|constructor]. split; cbn [class_id success scan_type].
  - apply or_else_UNKNOWN_nonempty.
  - destruct (result (is_recent_scan w _) s); [|done].
    by rewrite andb_false_r.
Qed.

Lemma count_app {A} (f : A -> bool) (l k : list A) :
  count f (l ++ k) = (count f l + count f k)%nat.
Proof. unfold count. by rewrite List.filter_app, length_app. Qed.

Lemma count_only_selects sel :
  only_selects sel -> count is_insert sel = 0%nat.
Proof.
  unfold count. induction 1 as [|c sel Hc _ IH]; [done|].
  cbn [List.filter]. by rewrite Hc.
Qed.

Lemma count_singleton {A} (f : A -> bool) (x : A) :
  count f [x] = if f x then 1%nat else 0%nat.
Proof. unfold count. cbn [List.filter]. by destruct (f x). Qed.

(** X5: over any run, among what the run added, there are at least as
    many inserts sent to the backend as successful rows in the log: no
    lap is logged as successful without its own insert.  (The converse
    bound fails: an insert whose row could not be appended leaves no
    row.) *)
Theorem successes_bounded_by_inserts w evs self :
  ∃ rows calls,
    csv_rows (run w evs self) = csv_rows self ++ rows
    ∧ remote_calls (run w evs self) = remote_calls self ++ calls
    ∧ (count success rows ≤ count is_insert calls)%nat.
Proof.
  apply (run_invariant w (fun s =>
    ∃ rows calls,
      csv_rows s = csv_rows self ++ rows
      ∧ remote_calls s = remote_calls self ++ calls
      ∧ (count success rows ≤ count is_insert calls)%nat));
    [|exists [], []; by rewrite !app_nil_r].
  intros e s (rows & calls & Hrows & Hcalls & H1).
  destruct (step_cases w e s) as [->|[(raw & _ & ->)|[->| ->]]];
    try by exists rows, calls.
  destruct (process_lap_body_spec w raw s) as (Hr & Hc & _).
  destruct (lookup_only_selects w raw s) as (sel & Hsel & Hall).
  rewrite Hr, Hc, Hsel, Hrows, Hcalls, <- !app_assoc.
  eexists _, _. split; [reflexivity|]. split; [reflexivity|].
  rewrite !count_app, (count_only_selects sel Hall).
  destruct (csv_appends _ _ _ _);
    [rewrite count_singleton; cbn [success] | unfold count at 2; cbn];
    destruct (opt_truthy _), (result (is_recent_scan w _) s), (supabase s);
    cbn [andb negb]; rewrite ?count_singleton; cbn [is_insert];
    unfold count in *; cbn [List.filter length];
    repeat match goal with
           | |- context [acked ?x] => destruct (acked x)
           end; lia.
Qed.

(** ** Local-only mode *)

Lemma offline_run w evs self :
  supabase self = false ->
  remote_calls (run w evs self) = remote_calls self
  ∧ classes_dict (run w evs self) = classes_dict self
  ∧ ∃ new, csv_rows (run w evs self) = csv_rows self ++ new
         ∧ Forall (fun r => success r = false) new.
Proof.
  intros Hoff.
  pose (I := fun s =>
    supabase s = false
    ∧ remote_calls s = remote_calls self
    ∧ classes_dict s = classes_dict self
    ∧ ∃ new, csv_rows s = csv_rows self ++ new
           ∧ Forall (fun r => success r = false) new).
  assert (I (run w evs self)) as (_ & H1 & H2 & H3); [|done].
  apply (run_invariant w I).
  - intros e s (Hs & Hcalls & Hcls & new & Hnew & Hall). unfold I.
    destruct (step_cases w e s) as [->|[(raw & _ & ->)|[->| ->]]];
      try (repeat split; try done; by exists new).
    destruct (process_lap_body_spec w raw s)
      as (Hr & Hc & _ & Hcls' & _ & _ & _ & Hs' & _).
    assert (exec (get_class_id_by_name w raw) s = s) as Hlook.
    { unfold exec. rewrite get_class_id_by_name_eq. cbv zeta.
      rewrite Hs. by destruct (classes_dict s !! _). }
    rewrite Hlook, Hs, andb_false_r in Hc. rewrite app_nil_r in Hc.
    rewrite Hlook in Hcls'. rewrite Hs, andb_false_r in Hr.
    cbn [andb] in Hr.
    rewrite Hs', Hc, Hcls'. repeat split; try done.
    rewrite Hr, Hnew, <- app_assoc. eexists. split; [reflexivity|].
    apply Forall_app. split; [done|].
    destruct (csv_appends _ _ _ _); by repeat constructor.
  - repeat split; try done. exists []. by rewrite app_nil_r.
Qed.

(** X6: without a Supabase client the tracker makes no remote call at all, the
    class table stays as loaded, and every row it logs has
    [success = False]. *)
Theorem local_only_mode w evs self :
  supabase self = false ->
  remote_calls (run w evs self) = remote_calls self
  ∧ classes_dict (run w evs self) = classes_dict self
  ∧ ∃ new, csv_rows (run w evs self) = csv_rows self ++ new
         ∧ Forall (fun r => success r = false) new.
Proof. apply offline_run. Qed.

(** ** The lookup and the class table *)

(** X7: what [get_class_id_by_name] returns is exactly what the class table
    holds for the canonical name once the call is over: an id it returns
    is in the table, and [None] means the name is still absent. *)
Theorem resolved_id_is_table_entry w input self :
  result (get_class_id_by_name w input) self
  = classes_dict (exec (get_class_id_by_name w input) self)
      !! canonical_name self input.
Proof.
  unfold result, exec, canonical_name. rewrite get_class_id_by_name_eq.
  cbv zeta. destruct (classes_dict self !! _) eqn:Hk; [done|].
  destruct (supabase self); sim; [|done].
  destruct (select_classes _ _ _) as [|[|cid ?]]; sim; try done.
  by rewrite lookup_insert_eq.
Qed.

(** ** Identifiers that count as missing *)

(** X8: an id that is [None] or the empty string (an empty [id] cell of
    [classes_rows.csv]) is handled as unresolved: the row of the
    submission, which the log gains unless the append raises, has
    [UNKNOWN] and [success = False], no insert is sent and no cooldown
    starts. *)
Theorem empty_id_is_unresolved w self raw :
  enters_processing self raw ->
  opt_truthy (result (get_class_id_by_name w raw) self) = false ->
  (∃ r, logs_row w self raw r ∧ class_id r = UNKNOWN ∧ success r = false)
  ∧ (∃ sel, remote_calls (exec (process_lap w raw) self) = remote_calls self ++ sel
          ∧ only_selects sel)
  ∧ recent_scans (exec (process_lap w raw) self) = recent_scans self.
Proof.
  intros Hin Hfalsy. split; [|split].
  - exists (lap_row w self raw). split; [by apply process_lap_logs_row|].
    unfold lap_row, logged_id. cbn [class_id success]. rewrite Hfalsy.
    split; [|done].
    destruct (result (get_class_id_by_name w raw) self) as [[|c t]|];
      cbn [or_else truthy opt_truthy] in *; done.
  - rewrite process_lap_exec by done.
    destruct (process_lap_body_spec w raw self) as (_ & Hc & _).
    rewrite Hfalsy in Hc. cbn [andb] in Hc. rewrite app_nil_r in Hc.
    rewrite Hc. apply lookup_only_selects.
  - rewrite process_lap_exec by done.
    destruct (process_lap_body_spec w raw self) as (_ & _ & Hs & _).
    by rewrite Hfalsy in Hs.
Qed.

(** ** The cooldown is per class, not per input *)

(** X9: after an accepted submission the scan time is stored under the
    canonical class name.  Any later submission that stands for the same
    class, the barcode again or the name typed in, made within 30 seconds
    of that time, sends no insert, and its row, which the log gains
    unless the append raises, is an unsuccessful DUPLICATE_SCAN. *)
Theorem cooldown_covers_barcode_and_name w self raw c :
  enters_processing self raw ->
  result (get_class_id_by_name w raw) self = Some c -> c ≠ [] ->
  result (is_recent_scan w (canonical_name self raw)) self = false ->
  ∃ t, recent_scans (exec (process_lap w raw) self) !! canonical_name self raw
       = Some t
     ∧ ∀ raw',
         canonical_name self raw' = canonical_name self raw ->
         enters_processing (restore_main (exec (process_lap w raw) self)) raw' ->
         now w (clock_reads (exec (process_lap w raw) self)) - t < 30 * 1000000 ->
         (∃ r, logs_row w (restore_main (exec (process_lap w raw) self)) raw' r
             ∧ success r = false ∧ scan_type r = DUPLICATE_SCAN)
         ∧ count is_insert
             (remote_calls (exec (process_lap w raw')
                              (restore_main (exec (process_lap w raw) self))))
           = count is_insert (remote_calls (exec (process_lap w raw) self)).
Proof.
  intros Hin Hc Hne Hfresh. unfold canonical_name in *.
  rewrite (process_lap_exec w self raw Hin).
  destruct (process_lap_body_spec w raw self)
    as (_ & _ & Hs & _ & _ & _ & Hbar & _).
  set (busy := exec (process_lap_body w (strip raw)) self) in *.
  rewrite Hc, Hfresh in Hs. cbn [opt_truthy negb] in Hs.
  apply truthy_true in Hne. rewrite Hne in Hs. cbn [andb] in Hs.
  eexists. split; [rewrite Hs; apply lookup_insert_eq|].
  intros raw' Hsame Hin' Hsoon.
  assert (barcode_or_literal (restore_main busy) (strip raw')
          = barcode_or_literal self (strip raw)) as Hname.
  { rewrite <- Hsame. unfold barcode_or_literal. cbn. by rewrite Hbar. }
  assert (result (is_recent_scan w (barcode_or_literal self (strip raw)))
            (restore_main busy) = true) as Hdup.
  { unfold result. rewrite is_recent_scan_eq. cbn [fst].
    cbn [restore_main restore_main_345 restore_main_346 recent_scans
         clock_reads set_processing set_last_processed_text].
    rewrite Hs, lookup_insert_eq. apply Z.ltb_lt. unfold window. lia. }
  split.
  - exists (lap_row w (restore_main busy) raw').
    split; [by apply process_lap_logs_row|].
    unfold lap_row. cbn [success scan_type].
    by rewrite Hname, Hdup, andb_false_r.
  - rewrite (process_lap_exec w _ raw' Hin').
    destruct (process_lap_body_spec w raw' (restore_main busy))
      as (_ & Hc' & _).
    rewrite Hname, Hdup in Hc'. rewrite andb_false_r in Hc'.
    cbn [andb] in Hc'. rewrite app_nil_r in Hc'. rewrite Hc'.
    destruct (lookup_only_selects w raw' (restore_main busy))
      as (sel & -> & Hall).
    by rewrite count_app, (count_only_selects sel Hall), Nat.add_0_r.
Qed.

(** X10: a submission only ever touches the scan time of its own class: the
    time recorded for any other name is the same before and after,
    whether the submission was processed or ignored. *)
Theorem other_teams_cooldown_untouched w self raw name :
  name ≠ canonical_name self raw ->
  recent_scans (exec (process_lap w raw) self) !! name
  = recent_scans self !! name.
Proof.
  intros Hother. unfold canonical_name in Hother.
  destruct (process_lap_cases w raw self) as [Hin|[_ Hsame]].
  - rewrite process_lap_exec by done.
    destruct (process_lap_body_spec w raw self) as (_ & _ & Hs & _).
    rewrite Hs. destruct (_ && _); [|done].
    by rewrite lookup_insert_ne.
  - unfold exec. by rewrite Hsame.
Qed.

(** ** A clock that goes back *)

(** X11: [is_recent_scan] takes no absolute value: when the clock reads a time
    at or before the recorded scan (the local clock was set back), the
    team counts as duplicate. *)
Theorem clock_set_back_is_duplicate w self name last_scan_time :
  recent_scans self !! name = Some last_scan_time ->
  now w (clock_reads self) <= last_scan_time ->
  result (is_recent_scan w name) self = true.
Proof.
  intros Hlast Hback. unfold result. rewrite is_recent_scan_eq, Hlast.
  cbn [fst]. apply Z.ltb_lt. unfold window. lia.
Qed.

(** ** Whitespace around the input *)

Lemma lstrip_all_space (s : pystr) : all_space s -> lstrip s = [].
Proof.
  induction 1 as [|c s Hc _ IH]; [done|]. cbn [lstrip]. by rewrite Hc.
Qed.

Lemma lstrip_nil_all_space (s : pystr) : lstrip s = [] -> all_space s.
Proof.
  induction s as [|c s IH]; [constructor|]. cbn [lstrip].
  destruct (is_space c) eqn:Hc; [|discriminate].
  intros Hs. constructor; [done|]. by apply IH.
Qed.

Lemma lstrip_app_space (p x : pystr) :
  all_space p -> lstrip (p ++ x) = lstrip x.
Proof.
  induction 1 as [|c p Hc _ IH]; [done|]. cbn [app lstrip]. by rewrite Hc.
Qed.

Lemma lstrip_app_nonblank (x y : pystr) :
  lstrip x ≠ [] -> lstrip (x ++ y) = lstrip x ++ y.
Proof.
  induction x as [|c x IH]; [done|]. cbn [app lstrip].
  destruct (is_space c); [exact IH | done].
Qed.

Lemma rstrip_app_space (x q : pystr) :
  all_space q -> rstrip (x ++ q) = rstrip x.
Proof.
  intros Hq. unfold rstrip. rewrite rev_app_distr.
  rewrite lstrip_app_space; [done|]. by apply Forall_rev.
Qed.

Lemma strip_padding (p x q : pystr) :
  all_space p -> all_space q -> strip (p ++ x ++ q) = strip x.
Proof.
  intros Hp Hq. unfold strip. rewrite (lstrip_app_space p _ Hp).
  destruct (lstrip x) as [|c t] eqn:Hx.
  - rewrite lstrip_all_space; [done|].
    apply Forall_app. split; [by apply lstrip_nil_all_space | done].
  - rewrite lstrip_app_nonblank by (by rewrite Hx).
    rewrite Hx. by apply rstrip_app_space.
Qed.

Lemma strip_nil_iff (s : pystr) : strip s = [] <-> all_space s.
Proof.
  unfold strip. split.
  - intros Hs. apply lstrip_nil_all_space.
    pose proof (lstrip_head s) as Hh.
    destruct (lstrip s) as [|c t]; [done|].
    by rewrite (rstrip_cons_keep c t Hh) in Hs.
  - intros Hs. by rewrite lstrip_all_space.
Qed.

(** X12: whitespace before and after the text (the line end a scanner adds,
    spaces from a paste) changes nothing: the submission and the lookup
    behave as for the bare text. *)
Theorem padding_is_ignored w self raw p q :
  all_space p -> all_space q ->
  process_lap w (p ++ raw ++ q) self = process_lap w raw self
  ∧ check_and_process w (p ++ raw ++ q) self = check_and_process w raw self
  ∧ get_class_id_by_name w (p ++ raw ++ q) self
    = get_class_id_by_name w raw self.
Proof.
  intros Hp Hq.
  assert (process_lap w (p ++ raw ++ q) self = process_lap w raw self) as H.
  { unfold process_lap. by rewrite (strip_padding p raw q Hp Hq). }
  split; [exact H|]. split.
  - by rewrite !check_and_process_eq.
  - rewrite !get_class_id_by_name_eq. cbv zeta.
    by rewrite (strip_padding p raw q Hp Hq).
Qed.

(** X13: an idle tracker (flag reset, marker cleared) ignores an input exactly
    when all its characters are whitespace. *)
Theorem ignored_iff_all_whitespace w self raw :
  processing self = false -> last_processed_text self = [] ->
  (process_lap w raw self = (tt, self) <-> all_space raw).
Proof.
  intros Hidle Hmark. rewrite <- strip_nil_iff. split.
  - intros Hsame.
    destruct (strip raw) as [|c t] eqn:Ht; [done|].
    assert (enters_processing self raw) as Hin.
    { unfold enters_processing. rewrite Ht, Hmark. by repeat split. }
    destruct (process_lap_marks_busy w self raw Hin) as [Hbusy _].
    unfold exec in Hbusy. rewrite Hsame in Hbusy. cbn [snd] in Hbusy.
    congruence.
  - intros Hblank. unfold process_lap. by rewrite Hblank.
Qed.

(** * Start-up *)

(** ** Loading the tables *)

Lemma load_rows_trimmed rows ending d :
  trimmed d -> trimmed (load_rows rows ending d).1.
Proof.
  revert d. induction rows as [|[[key|] [value|]] rows IH]; intros d Hd;
    cbn [load_rows fst]; try done.
  apply IH. apply map_Forall_insert_2; [|done].
  by rewrite !strip_idemp.
Qed.

Lemma load_barcodes_trimmed file encs d :
  trimmed d -> trimmed (load_barcodes file encs d).
Proof.
  revert d. induction encs as [|enc encs IH]; intros d Hd;
    cbn [load_barcodes]; [done|].
  pose proof (load_rows_trimmed (read_rows (file enc)) (read_ending (file enc))
                d Hd) as Hd'.
  unfold load_read. destruct (load_rows _ _ d) as [d' []]; cbn [fst] in Hd';
    try done. by apply IH.
Qed.

(** A key that no row carries keeps its entry. *)
Lemma load_rows_keeps rows ending d k v :
  d !! k = Some v ->
  Forall (fun r => row_key r ≠ Some k) rows ->
  (load_rows rows ending d).1 !! k = Some v.
Proof.
  intros Hk Hrows. revert d Hk.
  induction Hrows as [|[[key|] [value|]] rows Hr _ IH]; intros d Hk;
    cbn [load_rows fst]; try done.
  apply IH. rewrite lookup_insert_ne; [done|].
  intros Heq. apply Hr. cbn. by rewrite Heq.
Qed.

Lemma load_rows_app_good pre rest ending d :
  Forall (fun r => ¬ bad_row r) pre ->
  ∃ d', load_rows (pre ++ rest) ending d = load_rows rest ending d'.
Proof.
  intros Hpre. revert d.
  induction Hpre as [|[[key|] [value|]] pre Hr _ IH]; intros d;
    cbn [app load_rows].
  - by exists d.
  - apply IH.
  - exfalso. apply Hr. by right.
  - exfalso. apply Hr. by left.
  - exfalso. apply Hr. by left.
Qed.

Lemma load_rows_Loaded rows ending d d' :
  load_rows rows ending d = (d', Loaded) ->
  Forall (fun r => ¬ bad_row r) rows ∧ ending = End_of_file.
Proof.
  revert d. induction rows as [|[[key|] [value|]] rows IH]; intros d;
    cbn [load_rows]; try discriminate.
  - destruct ending; try discriminate. by split.
  - intros H. destruct (IH _ H) as [Hrows He]. split; [|done].
    constructor; [|done]. by intros [?|?].
Qed.

Lemma load_classes_fst fs rd :
  classes_rows_csv fs = Some rd ->
  (load_classes_mapping fs).1 = (load_read rd ∅).1.
Proof.
  intros Hfs. unfold load_classes_mapping. rewrite Hfs.
  by destruct (load_read rd ∅) as [d []].
Qed.

(** X14: both tables come out of [load_classes_mapping] with stripped keys and
    stripped values, whatever the files hold and however reading ends. *)
Theorem loaded_tables_are_trimmed fs :
  trimmed (load_classes_mapping fs).1 ∧ trimmed (load_classes_mapping fs).2.
Proof.
  assert (trimmed (∅ : gmap pystr pystr)) as Hempty by apply map_Forall_empty.
  assert (trimmed (load_barcode_file fs)) as Hbar.
  { unfold load_barcode_file. destruct (barcode_csv fs); [|done].
    by apply load_barcodes_trimmed. }
  unfold load_classes_mapping.
  destruct (classes_rows_csv fs) as [rd|]; [|done].
  pose proof (load_rows_trimmed (read_rows rd) (read_ending rd) ∅ Hempty) as Hc.
  unfold load_read. by destruct (load_rows _ _ ∅) as [d []].
Qed.

(** X15: a row of [classes_rows.csv] that is reached (the rows before it are
    complete) and whose name does not come again later is in the class
    table, stripped; the tracker then answers that name, with whatever
    whitespace around it, from the table and leaves itself untouched,
    unless the name is also a barcode. *)
Theorem listed_class_resolves_locally fs rd pre name cid post :
  classes_rows_csv fs = Some rd ->
  read_rows rd = pre ++ (Some name, Some cid) :: post ->
  Forall (fun r => ¬ bad_row r) pre ->
  Forall (fun r => row_key r ≠ Some (strip name)) post ->
  (load_classes_mapping fs).1 !! strip name = Some (strip cid)
  ∧ ∀ w env raw,
      strip raw = strip name ->
      (load_classes_mapping fs).2 !! strip name = None ->
      get_class_id_by_name w raw (startup fs env)
      = (Some (strip cid), startup fs env).
Proof.
  intros Hfs Hrows Hpre Hpost.
  assert ((load_classes_mapping fs).1 !! strip name = Some (strip cid)) as Hin.
  { rewrite (load_classes_fst fs rd Hfs). unfold load_read. rewrite Hrows.
    destruct (load_rows_app_good pre ((Some name, Some cid) :: post)
                (read_ending rd) ∅ Hpre) as (d' & ->).
    cbn [load_rows]. apply load_rows_keeps; [|done]. apply lookup_insert_eq. }
  split; [exact Hin|].
  intros w env raw Hraw Hnobar. rewrite get_class_id_by_name_eq. cbv zeta.
  unfold barcode_or_literal, startup, init. sim.
  rewrite Hraw, Hnobar. cbn [default]. by rewrite Hin.
Qed.

(** X16: when reading [classes_rows.csv] raises (a cell that cannot be
    stripped, a decoding error or any other exception), the barcode file
    is not read at all: the barcode table is empty, while the classes read
    before the exception stay in the class table. *)
Theorem broken_class_file_disables_barcodes fs rd :
  classes_rows_csv fs = Some rd ->
  Exists bad_row (read_rows rd) ∨ read_ending rd ≠ End_of_file ->
  (load_classes_mapping fs).2 = ∅
  ∧ (load_classes_mapping fs).1 = (load_read rd ∅).1.
Proof.
  intros Hfs Hbroken. split; [|by apply load_classes_fst].
  unfold load_classes_mapping. rewrite Hfs.
  destruct (load_read rd ∅) as [d o] eqn:Hload.
  destruct o; try done.
  destruct (load_rows_Loaded _ _ _ _ Hload) as [Hgood Hend].
  destruct Hbroken as [Hbad|Hne]; [|done].
  exfalso. apply Exists_exists in Hbad as (r & Hr & Hbad).
  rewrite Forall_forall in Hgood. by apply (Hgood r).
Qed.

(** X17: barcodes stored while the file was read as UTF-8 stay in the table
    when that pass ends with a [UnicodeDecodeError]: the later passes
    write into the same dictionary, and an entry whose key they do not
    carry is still there in the end. *)
Theorem failed_encoding_leaves_entries fs file d k v :
  barcode_csv fs = Some file ->
  load_read (file utf_8) ∅ = (d, Decode_failed) ->
  d !! k = Some v ->
  Forall (fun r => row_key r ≠ Some k) (read_rows (file latin_1)) ->
  Forall (fun r => row_key r ≠ Some k) (read_rows (file cp1252)) ->
  load_barcode_file fs !! k = Some v.
Proof.
  intros Hfs Hutf Hk Hlatin Hcp. unfold load_barcode_file. rewrite Hfs.
  cbn [encodings load_barcodes]. rewrite Hutf.
  pose proof (load_rows_keeps _ (read_ending (file latin_1)) d k v Hk Hlatin)
    as Hk1.
  unfold load_read at 1.
  destruct (load_rows (read_rows (file latin_1)) _ d) as [d1 o1];
    cbn [fst] in Hk1.
  destruct o1; try done.
  pose proof (load_rows_keeps _ (read_ending (file cp1252)) d1 k v Hk1 Hcp)
    as Hk2.
  unfold load_read.
  by destruct (load_rows (read_rows (file cp1252)) _ d1) as [d2 []].
Qed.

(** ** Creating the client *)

Lemma opt_truthy_Some (o : option pystr) :
  opt_truthy o = true -> o = Some (default [] o) ∧ default [] o ≠ [].
Proof.
  destruct o as [[|c t]|]; cbn [opt_truthy truthy default]; try discriminate.
  by split.
Qed.

(** X18: the tracker has a client only if [create_client] was called, once,
    and returned: with the service role key when there is one (the URL is
    not looked at on that path), otherwise with the first non-empty of
    the three public keys and a non-empty URL. *)
Theorem client_only_if_created env :
  (setup_supabase env).1 = true ->
  ∃ key rest,
    (setup_supabase env).2 = Create_client (env_url env) key :: rest
    ∧ create_client env (env_url env) key = true
    ∧ key ≠ []
    ∧ (∀ url k, Create_client url k ∉ rest)
    ∧ (env_service_key env = Some key
       ∨ (opt_truthy (env_service_key env) = false
          ∧ env_key env = Some key
          ∧ opt_truthy (env_url env) = true)).
Proof.
  unfold setup_supabase.
  destruct (SUPABASE_AVAILABLE env), (load_dotenv env); cbn [negb fst snd];
    try discriminate.
  cbv zeta. destruct (opt_truthy (env_service_key env)) eqn:Hsk; cbn [fst snd].
  - intros Hok. destruct (opt_truthy_Some _ Hsk) as [Heq Hne].
    exists (default [] (env_service_key env)), [].
    repeat split; try done.
    + intros url k. apply not_elem_of_nil.
    + by left.
  - destruct (opt_truthy (env_url env)) eqn:Hu; cbn [negb orb fst];
      [|discriminate].
    destruct (opt_truthy (env_key env)) eqn:Hk; cbn [negb fst];
      [|discriminate].
    destruct (opt_truthy_Some _ Hk) as [Heq Hne].
    destruct (create_client env _ _) eqn:Hc; cbn [fst snd]; [|discriminate].
    intros _. exists (default [] (env_key env)), (authenticate_user env).
    repeat split; try done.
    + intros url k. unfold authenticate_user. cbv zeta.
      destruct (_ || _); [apply not_elem_of_nil|].
      rewrite list_elem_of_singleton. discriminate.
    + right. by repeat split.
Qed.

(** X19: a user sign-in is attempted only behind a client that was created
    with a public key: never when a service role key is set, never when
    [create_client] raised, and only with both credentials non-empty. *)
Theorem sign_in_only_with_public_key env email password :
  Sign_in email password ∈ (setup_supabase env).2 ->
  (setup_supabase env).1 = true
  ∧ opt_truthy (env_service_key env) = false
  ∧ getenv env (py "SUPABASE_USER_EMAIL") = Some email ∧ email ≠ []
  ∧ getenv env (py "SUPABASE_USER_PASSWORD") = Some password ∧ password ≠ [].
Proof.
  unfold setup_supabase.
  destruct (SUPABASE_AVAILABLE env), (load_dotenv env); cbn [negb fst snd];
    try (intros H; by apply not_elem_of_nil in H).
  cbv zeta. destruct (opt_truthy (env_service_key env)) eqn:Hsk; cbn [fst snd].
  - rewrite list_elem_of_singleton. discriminate.
  - destruct (_ || _); cbn [fst snd];
      [intros H; by apply not_elem_of_nil in H|].
    destruct (create_client env _ _); cbn [fst snd].
    + rewrite elem_of_cons. intros [Habs|Hin]; [discriminate|].
      unfold authenticate_user in Hin. cbv zeta in Hin.
      destruct (opt_truthy (getenv env (py "SUPABASE_USER_EMAIL"))) eqn:He;
        cbn [negb orb] in Hin; [|by apply not_elem_of_nil in Hin].
      destruct (opt_truthy (getenv env (py "SUPABASE_USER_PASSWORD"))) eqn:Hp;
        cbn [negb] in Hin; [|by apply not_elem_of_nil in Hin].
      apply list_elem_of_singleton in Hin. injection Hin as -> ->.
      destruct (opt_truthy_Some _ He) as [He1 He2].
      destruct (opt_truthy_Some _ Hp) as [Hp1 Hp2].
      by repeat split.
    + rewrite list_elem_of_singleton. discriminate.
Qed.

(** X20: without the libraries, or without a service role key and with the
    URL or all three public keys missing or empty, no client is created
    and nothing is called; the tracker built at start-up then never makes
    a remote call, and every row it logs has [success = False]. *)
Theorem unconfigured_tracker_is_local_only env :
  SUPABASE_AVAILABLE env = false
  ∨ (opt_truthy (env_service_key env) = false
     ∧ (opt_truthy (env_url env) = false ∨ opt_truthy (env_key env) = false)) ->
  setup_supabase env = (false, [])
  ∧ ∀ fs w evs,
      remote_calls (run w evs (startup fs env)) = []
      ∧ Forall (fun r => success r = false)
          (csv_rows (run w evs (startup fs env))).
Proof.
  intros Hcfg.
  assert (setup_supabase env = (false, [])) as Hoff.
  { unfold setup_supabase. destruct Hcfg as [->|(Hsk & Hmissing)]; [done|].
    destruct (SUPABASE_AVAILABLE env), (load_dotenv env); cbn [negb]; try done.
    cbv zeta. rewrite Hsk.
    by destruct Hmissing as [-> | ->]; rewrite ?orb_true_r. }
  split; [exact Hoff|].
  intros fs w evs.
  destruct (offline_run w evs (startup fs env)) as (Hc & _ & new & Hr & Hall).
  { unfold startup. by rewrite Hoff. }
  split; [exact Hc|]. by rewrite Hr.
Qed.

(** * The further properties on the examples *)

(** Local-only mode on the example: [7A], the success screen, [B123]. *)
Lemma local_only_mode_witness :
  supabase ex_tracker_offline = false
  ∧ remote_calls
      (run ex_world [Return_key (py "7A"); Restore_345; Restore_346;
                     Text_change (py "B123")] ex_tracker_offline)
    = remote_calls ex_tracker_offline.
Proof.
  assert (supabase ex_tracker_offline = false) as H by by_evaluation.
  split; [exact H|].
  exact (proj1 (local_only_mode ex_world
                  [Return_key (py "7A"); Restore_345; Restore_346;
                   Text_change (py "B123")] ex_tracker_offline H)).
Defined.

(** The empty id on the example: class [7A] with an empty [id] cell. *)
Lemma empty_id_is_unresolved_witness :
  enters_processing ex_tracker_empty_id (py "7A")
  ∧ result (get_class_id_by_name ex_world (py "7A")) ex_tracker_empty_id = Some []
  ∧ recent_scans (exec (process_lap ex_world (py "7A")) ex_tracker_empty_id)
    = recent_scans ex_tracker_empty_id.
Proof.
  assert (enters_processing ex_tracker_empty_id (py "7A")) as Hin
    by by_evaluation.
  assert (result (get_class_id_by_name ex_world (py "7A")) ex_tracker_empty_id
          = Some []) as Hid by by_evaluation.
  assert (opt_truthy (result (get_class_id_by_name ex_world (py "7A"))
                        ex_tracker_empty_id) = false) as Hfalsy
    by by_evaluation.
  split; [exact Hin|]. split; [exact Hid|].
  exact (proj2 (proj2 (empty_id_is_unresolved ex_world ex_tracker_empty_id
                         (py "7A") Hin Hfalsy))).
Defined.

(** The cooldown on the example: barcode [B123], then the name [7A] two
    seconds later. *)
Lemma cooldown_covers_barcode_and_name_witness :
  enters_processing ex_tracker (py "B123")
  ∧ result (get_class_id_by_name ex_world (py "B123")) ex_tracker
    = Some (py "id-7A")
  ∧ result (is_recent_scan ex_world (canonical_name ex_tracker (py "B123")))
      ex_tracker = false
  ∧ ∃ t, recent_scans (exec (process_lap ex_world (py "B123")) ex_tracker)
           !! canonical_name ex_tracker (py "B123") = Some t
       ∧ ∃ r, csv_rows (exec (process_lap ex_world (py "7A"))
                          (restore_main
                             (exec (process_lap ex_world (py "B123")) ex_tracker)))
              = csv_rows (exec (process_lap ex_world (py "B123")) ex_tracker)
                ++ [r]
            ∧ success r = false ∧ scan_type r = DUPLICATE_SCAN.
Proof.
  assert (enters_processing ex_tracker (py "B123")) as Hin by by_evaluation.
  assert (result (get_class_id_by_name ex_world (py "B123")) ex_tracker
          = Some (py "id-7A")) as Hid by by_evaluation.
  assert (py "id-7A" ≠ []) as Hne by by_evaluation.
  assert (result (is_recent_scan ex_world (canonical_name ex_tracker (py "B123")))
            ex_tracker = false) as Hfresh by by_evaluation.
  assert (log_accepts ex_world
            (restore_main (exec (process_lap ex_world (py "B123")) ex_tracker))
            (py "7A")) as Hok by example_accepts.
  split; [exact Hin|]. split; [exact Hid|]. split; [exact Hfresh|].
  destruct (cooldown_covers_barcode_and_name ex_world ex_tracker (py "B123")
              (py "id-7A") Hin Hid Hne Hfresh) as (t & Ht & Hlater).
  exists t. split; [exact Ht|].
  assert (t = 2000000) as ->.
  { assert (recent_scans (exec (process_lap ex_world (py "B123")) ex_tracker)
              !! canonical_name ex_tracker (py "B123") = Some 2000000) as Ht'
      by by_evaluation.
    congruence. }
  destruct (Hlater (py "7A")) as [(r & [_ Hr] & Hfields) _];
    [by_evaluation | by_evaluation | by_evaluation |].
  exists r. split; [exact (Hr Hok) | exact Hfields].
Defined.

(** Other teams on the example: a lap of [7A] leaves [8B] unscanned. *)
Lemma other_teams_cooldown_untouched_witness :
  py "8B" ≠ canonical_name ex_tracker (py "B123")
  ∧ recent_scans (exec (process_lap ex_world (py "B123")) ex_tracker) !! py "8B"
    = recent_scans ex_tracker !! py "8B".
Proof.
  assert (py "8B" ≠ canonical_name ex_tracker (py "B123")) as H
    by by_evaluation.
  split; [exact H|].
  exact (other_teams_cooldown_untouched ex_world ex_tracker (py "B123")
           (py "8B") H).
Defined.

(** The backward clock on the example: [7A] again, two readings later. *)
Lemma clock_set_back_is_duplicate_witness :
  recent_scans ex_after_lap_clock_back !! py "7A" = Some (-2000000)
  ∧ now ex_world_clock_back (clock_reads ex_after_lap_clock_back) <= -2000000
  ∧ result (is_recent_scan ex_world_clock_back (py "7A"))
      ex_after_lap_clock_back = true.
Proof.
  assert (recent_scans ex_after_lap_clock_back !! py "7A" = Some (-2000000))
    as H by by_evaluation.
  assert (now ex_world_clock_back (clock_reads ex_after_lap_clock_back)
          <= -2000000) as Hback by by_evaluation.
  split; [exact H|]. split; [exact Hback|].
  exact (clock_set_back_is_duplicate ex_world_clock_back
           ex_after_lap_clock_back (py "7A") (-2000000) H Hback).
Defined.

(** Padding on the example: a space before [B123], CR LF after it. *)
Lemma padding_is_ignored_witness :
  all_space (py " ") ∧ all_space [13; 10]%N
  ∧ process_lap ex_world (py " " ++ py "B123" ++ [13; 10]%N) ex_tracker
    = process_lap ex_world (py "B123") ex_tracker.
Proof.
  assert (all_space (py " ")) as Hp by (by repeat constructor).
  assert (all_space [13; 10]%N) as Hq by (by repeat constructor).
  split; [exact Hp|]. split; [exact Hq|].
  exact (proj1 (padding_is_ignored ex_world ex_tracker (py "B123")
                  (py " ") [13; 10]%N Hp Hq)).
Defined.

(** Blank inputs on the example: a tab and a no-break space are ignored. *)
Lemma ignored_iff_all_whitespace_witness :
  processing ex_tracker = false ∧ last_processed_text ex_tracker = []
  ∧ all_space [9; 160]%N
  ∧ process_lap ex_world [9; 160]%N ex_tracker = (tt, ex_tracker).
Proof.
  assert (processing ex_tracker = false) as Hidle by by_evaluation.
  assert (last_processed_text ex_tracker = []) as Hmark by by_evaluation.
  assert (all_space [9; 160]%N) as Hblank by (by repeat constructor).
  split; [exact Hidle|]. split; [exact Hmark|]. split; [exact Hblank|].
  exact (proj2 (ignored_iff_all_whitespace ex_world ex_tracker [9; 160]%N
                  Hidle Hmark) Hblank).
Defined.

(** The class file of the example: the last row for [7A] is the one the
    tracker answers with. *)
Lemma listed_class_resolves_locally_witness :
  classes_rows_csv ex_files = Some ex_class_file
  ∧ (load_classes_mapping ex_files).1 !! strip (py "7A") = Some (strip (py "id-7A"))
  ∧ get_class_id_by_name ex_world (py " 7A ") (startup ex_files ex_env_user)
    = (Some (strip (py "id-7A")), startup ex_files ex_env_user).
Proof.
  assert (classes_rows_csv ex_files = Some ex_class_file) as Hfs by reflexivity.
  assert (read_rows ex_class_file
          = [ (Some (py " 7A "), Some (py "id-old"));
              (Some (py "8B"), Some (py " id-8B")) ]
            ++ (Some (py "7A"), Some (py "id-7A")) :: []) as Hrows
    by reflexivity.
  assert (Forall (fun r => ¬ bad_row r)
            [ (Some (py " 7A "), Some (py "id-old"));
              (Some (py "8B"), Some (py " id-8B")) ]) as Hpre.
  { repeat constructor; intros [?|?]; discriminate. }
  assert (Forall (fun r : option pystr * option pystr =>
                    row_key r ≠ Some (strip (py "7A"))) []) as Hpost
    by constructor.
  destruct (listed_class_resolves_locally ex_files ex_class_file _ (py "7A")
              (py "id-7A") [] Hfs Hrows Hpre Hpost) as [Hin Hresolve].
  split; [exact Hfs|]. split; [exact Hin|].
  apply Hresolve; by_evaluation.
Defined.

(** The short row of the example: class [7A] is kept, no barcode is
    loaded. *)
Lemma broken_class_file_disables_barcodes_witness :
  classes_rows_csv ex_files_short_row = Some ex_short_class_file
  ∧ Exists bad_row (read_rows ex_short_class_file)
  ∧ (load_classes_mapping ex_files_short_row).2 = ∅
  ∧ (load_classes_mapping ex_files_short_row).1
    = (load_read ex_short_class_file ∅).1.
Proof.
  assert (classes_rows_csv ex_files_short_row = Some ex_short_class_file)
    as Hfs by reflexivity.
  assert (Exists bad_row (read_rows ex_short_class_file)) as Hbad.
  { apply Exists_cons_tl, Exists_cons_hd. by right. }
  split; [exact Hfs|]. split; [exact Hbad|].
  exact (broken_class_file_disables_barcodes ex_files_short_row
           ex_short_class_file Hfs (or_introl Hbad)).
Defined.

(** The barcode file of the example: [B123], read before UTF-8 failed, is
    still in the table after the Latin-1 pass. *)
Lemma failed_encoding_leaves_entries_witness :
  load_read (ex_barcode_file utf_8) ∅
    = ({[ py "B123" := py "7A" ]}, Decode_failed)
  ∧ load_barcode_file ex_files !! py "B123" = Some (py "7A").
Proof.
  assert (load_read (ex_barcode_file utf_8) ∅
          = ({[ py "B123" := py "7A" ]}, Decode_failed)) as Hutf
    by (vm_compute; reflexivity).
  assert (({[ py "B123" := py "7A" ]} : gmap pystr pystr) !! py "B123"
          = Some (py "7A")) as Hk by by_evaluation.
  assert (Forall (fun r => row_key r ≠ Some (py "B123"))
            (read_rows (ex_barcode_file latin_1))) as Hl.
  { repeat constructor. by_evaluation. }
  assert (Forall (fun r => row_key r ≠ Some (py "B123"))
            (read_rows (ex_barcode_file cp1252))) as Hc.
  { repeat constructor. by_evaluation. }
  split; [exact Hutf|].
  exact (failed_encoding_leaves_entries ex_files ex_barcode_file _ _ _
           eq_refl Hutf Hk Hl Hc).
Defined.

(** The client of the example environment: created with the anon key. *)
Lemma client_only_if_created_witness :
  (setup_supabase ex_env_user).1 = true
  ∧ ∃ key rest,
      (setup_supabase ex_env_user).2 = Create_client (env_url ex_env_user) key :: rest
      ∧ create_client ex_env_user (env_url ex_env_user) key = true
      ∧ key ≠ [].
Proof.
  assert ((setup_supabase ex_env_user).1 = true) as H by by_evaluation.
  split; [exact H|].
  destruct (client_only_if_created ex_env_user H)
    as (key & rest & Hcalls & Hok & Hne & _).
  exists key, rest. by repeat split.
Defined.

(** The sign-in of the example environment. *)
Lemma sign_in_only_with_public_key_witness :
  Sign_in (py "a@b.c") (py "pw") ∈ (setup_supabase ex_env_user).2
  ∧ (setup_supabase ex_env_user).1 = true
  ∧ opt_truthy (env_service_key ex_env_user) = false.
Proof.
  assert (Sign_in (py "a@b.c") (py "pw") ∈ (setup_supabase ex_env_user).2) as H.
  { vm_compute. apply list_elem_of_further, list_elem_of_here. }
  destruct (sign_in_only_with_public_key ex_env_user _ _ H) as (Hc & Hsk & _).
  by repeat split.
Defined.

(** The environment without a key: a tracker that stays local. *)
Lemma unconfigured_tracker_is_local_only_witness :
  opt_truthy (env_service_key ex_env_no_key) = false
  ∧ opt_truthy (env_key ex_env_no_key) = false
  ∧ setup_supabase ex_env_no_key = (false, [])
  ∧ remote_calls
      (run ex_world [Return_key (py "7A")] (startup ex_files ex_env_no_key))
    = [].
Proof.
  assert (opt_truthy (env_service_key ex_env_no_key) = false) as Hsk
    by by_evaluation.
  assert (opt_truthy (env_key ex_env_no_key) = false) as Hk by by_evaluation.
  destruct (unconfigured_tracker_is_local_only ex_env_no_key
              (or_intror (conj Hsk (or_intror Hk)))) as [Hoff Hrun].
  split; [exact Hsk|]. split; [exact Hk|]. split; [exact Hoff|].
  exact (proj1 (Hrun ex_files ex_world [Return_key (py "7A")])).
Defined.
